(** * Hybrid retrieval engine of the golf rules Q&A application

    A shallow embedding of [rag/retriever.py] (chunking, TF-IDF scoring,
    score fusion), [rag/embeddings.py] (cosine similarity) and
    [rag/claude_qa.py] (context precision), and the properties of the
    specification that are stated about them.

    Conventions of the embedding.
    - A Python [str] is a [string] whose characters are code points below
      256; the character classes used by [str.split], [str.lower] and the
      regular expression classes [\w] and [\s] are written out for that
      range.
    - A Python [int] is a [Z].
    - A Python [float] is idealised as a real number: no rounding, no
      overflow, no NaN. Every statement about scores below is a statement
      about this idealisation.
    - An operation that can raise returns a [result]. *)

From Stdlib Require Import String Ascii List ZArith Lia Bool Arith.
From Stdlib Require Import Reals Lra Permutation Sorted.
From stdpp Require Import gmap strings.
Import ListNotations.

(** ** The fragment of Python the sources rely on *)

Module Py.

(** Exceptions the modelled code can raise. *)
Inductive exn : Type :=
| ValueError
| ZeroDivisionError.

Inductive result (A : Type) : Type :=
| Ok (a : A)
| Raise (e : exn).
Arguments Ok {A} a.
Arguments Raise {A} e.

Definition bind {A B : Type} (r : result A) (k : A -> result B) : result B :=
  match r with
  | Ok a => k a
  | Raise e => Raise e
  end.

(** *** Integers: [range] and slices *)

(** Number of elements of [range(start, stop, step)] for a non-zero step. *)
Definition range_len (start stop step : Z) : Z :=
  if (0 <? step)%Z then
    if (start <? stop)%Z then (1 + (stop - 1 - start) / step)%Z else 0%Z
  else
    if (stop <? start)%Z then (1 + (start - 1 - stop) / (- step))%Z else 0%Z.

(** [range(start, stop, step)]; a zero step raises [ValueError]. *)
Definition range (start stop step : Z) : result (list Z) :=
  if (step =? 0)%Z then Raise ValueError
  else Ok (map (fun k => (start + Z.of_nat k * step)%Z)
               (seq 0 (Z.to_nat (range_len start stop step)))).

(** A slice bound is clamped to [0, len]; a negative bound counts from the
    end. *)
Definition slice_index (len i : Z) : Z :=
  if (i <? 0)%Z then Z.max (i + len) 0 else Z.min i len.

(** [l[lo:hi]] *)
Definition slice {A : Type} (l : list A) (lo hi : Z) : list A :=
  let n := Z.of_nat (length l) in
  let a := slice_index n lo in
  let b := slice_index n hi in
  firstn (Z.to_nat (b - a)) (skipn (Z.to_nat a) l).

(** [l[:hi]] *)
Definition slice_to {A : Type} (l : list A) (hi : Z) : list A :=
  slice l 0 hi.

(** *** Characters *)

(** [str.isspace] on code points below 256. *)
Definition is_space (c : ascii) : bool :=
  let n := nat_of_ascii c in
  ((9 <=? n) && (n <=? 13)) || ((28 <=? n) && (n <=? 32))
  || (n =? 133) || (n =? 160).

(** The class [\w] of [re] on code points below 256: letters, digits,
    numeric characters and the underscore. *)
Definition is_word (c : ascii) : bool :=
  let n := nat_of_ascii c in
  ((48 <=? n) && (n <=? 57)) || ((65 <=? n) && (n <=? 90))
  || (n =? 95) || ((97 <=? n) && (n <=? 122))
  || (n =? 170) || (n =? 178) || (n =? 179) || (n =? 181)
  || (n =? 185) || (n =? 186) || ((188 <=? n) && (n <=? 190))
  || ((192 <=? n) && (n <=? 214)) || ((216 <=? n) && (n <=? 246))
  || ((248 <=? n) && (n <=? 255)).

(** [str.lower] on one code point below 256. *)
Definition lower_char (c : ascii) : ascii :=
  let n := nat_of_ascii c in
  if ((65 <=? n) && (n <=? 90)) || ((192 <=? n) && (n <=? 214))
     || ((216 <=? n) && (n <=? 222))
  then ascii_of_nat (n + 32) else c.

(** *** Strings *)

Fixpoint map_string (f : ascii -> ascii) (s : string) : string :=
  match s with
  | EmptyString => EmptyString
  | String c s' => String (f c) (map_string f s')
  end.

(** [s.lower()] *)
Definition lower (s : string) : string := map_string lower_char s.

(** Truth value of a string: non-empty. *)
Definition truthy (s : string) : bool :=
  match s with
  | EmptyString => false
  | String _ _ => true
  end.

Definition starts_with_space (s : string) : bool :=
  match s with
  | EmptyString => true
  | String c _ => is_space c
  end.

(** [s.split()]: the maximal runs of non-whitespace characters. *)
Fixpoint split (s : string) : list string :=
  match s with
  | EmptyString => []
  | String c s' =>
      if is_space c then split s'
      else if starts_with_space s' then String c EmptyString :: split s'
      else match split s' with
           | w :: ws => String c w :: ws
           | [] => [String c EmptyString]
           end
  end.

(** [sep.join(l)] *)
Fixpoint join (sep : string) (l : list string) : string :=
  match l with
  | [] => EmptyString
  | w :: ws =>
      match ws with
      | [] => w
      | _ :: _ => (w ++ sep ++ join sep ws)%string
      end
  end.

(** [t in s] for strings: [t] occurs in [s] as a contiguous substring. *)
Fixpoint contains (t s : string) : bool :=
  String.prefix t s
  || match s with
     | EmptyString => false
     | String _ s' => contains t s'
     end.

(** [str(n)] for a non-negative integer: its decimal digits. *)
Definition digit (d : nat) : ascii := ascii_of_nat (48 + d).

Fixpoint str_of_nat_fuel (fuel n : nat) (acc : string) : string :=
  match fuel with
  | O => acc
  | S fuel' =>
      let acc' := String (digit (n mod 10)) acc in
      if n <? 10 then acc' else str_of_nat_fuel fuel' (n / 10) acc'
  end.

Definition str_of_nat (n : nat) : string :=
  str_of_nat_fuel (S n) n EmptyString.

(** *** Sequencing of operations that can raise *)

Fixpoint foldM {A B : Type} (f : B -> A -> result B) (l : list A) (b : B)
  : result B :=
  match l with
  | [] => Ok b
  | x :: l' => bind (f b x) (foldM f l')
  end.

(** *** Floats, idealised as reals *)

Definition Rltb (x y : R) : bool := if Rlt_dec x y then true else false.
Definition Reqb (x y : R) : bool := if Req_dec_T x y then true else false.

(** [a / b] on Python floats and integers: a zero divisor raises
    [ZeroDivisionError]. *)
Definition div (a b : R) : result R :=
  if Reqb b 0 then Raise ZeroDivisionError else Ok (a / b)%R.

(** [math.log(x)]: a non-positive argument raises [ValueError]. *)
Definition log (x : R) : result R :=
  if Rltb 0 x then Ok (ln x) else Raise ValueError.

(** [max(l)] for a list known to be non-empty, with the default the caller
    supplies for the empty one. *)
Definition max_or (default : R) (l : list R) : R :=
  match l with
  | [] => default
  | x :: xs => fold_left Rmax xs x
  end.

(** [l.sort(key=key, reverse=True)]: the order is descending by key and
    stable, elements with equal keys keep their relative order. *)
Fixpoint insert_desc {A : Type} (key : A -> R) (x : A) (l : list A) : list A :=
  match l with
  | [] => [x]
  | y :: l' =>
      if Rltb (key x) (key y) then y :: insert_desc key x l' else x :: l
  end.

Definition sort_desc {A : Type} (key : A -> R) (l : list A) : list A :=
  fold_right (insert_desc key) [] l.

(** *** Dictionaries that remember insertion order *)

Definition odict (V : Type) : Type := list (string * V).

Fixpoint dict_get {V : Type} (k : string) (d : odict V) : option V :=
  match d with
  | [] => None
  | (k', v) :: d' => if String.eqb k' k then Some v else dict_get k d'
  end.

(** [d[k] = v]: an existing key keeps its position, a new key goes last. *)
Fixpoint dict_set {V : Type} (k : string) (v : V) (d : odict V) : odict V :=
  match d with
  | [] => [(k, v)]
  | (k', v') :: d' =>
      if String.eqb k' k then (k, v) :: d' else (k', v') :: dict_set k v d'
  end.

Definition dict_keys {V : Type} (d : odict V) : list string := map fst d.
Definition dict_values {V : Type} (d : odict V) : list V := map snd d.

End Py.

Export Py(exn(..), result(..)).


Declare Scope py_scope.
Delimit Scope py_scope with py.
Notation "'let*' x ':=' e 'in' k" := (Py.bind e (fun x => k))
  (at level 10, x name, e at level 100, k at level 200) : py_scope.
Notation "'let*' ' p ':=' e 'in' k" := (Py.bind e (fun p => k))
  (at level 10, p strict pattern, e at level 100, k at level 200) : py_scope.

(** ** [rag/retriever.py] *)

Module Retriever.

Local Open Scope py_scope.

(** The metadata dictionary stored with a chunk. The two entries read with
    [.get(key, '')] are optional. *)
Record chunk_metadata : Type := {
  rule_id : option string;
  chunk_index : option nat;
  title : string;
  section : string;
  effective_date : string;
  total_chunks : nat
}.

(** A document handed to [add_documents]. *)
Record document : Type := {
  doc_rule_id : string;
  doc_content : string;
  doc_title : string;
  doc_section : string;
  doc_effective_date : string
}.

(** One stored row of the vector collection (the embedding itself lives
    in the external store). *)
Record entry : Type := {
  e_id : string;
  e_document : string;
  e_metadata : chunk_metadata
}.

(** The mutable attributes of a [HybridRetriever]. *)
Record retriever : Type := {
  collection : list entry;
  tfidf_cache : gmap string R
}.

Record semantic_result : Type := {
  sr_content : string;
  sr_metadata : chunk_metadata;
  sr_distance : R;
  sr_similarity : R
}.

Record tfidf_result : Type := {
  tr_content : string;
  tr_metadata : chunk_metadata;
  tr_tfidf_score : R
}.

(** A value of the [combined] dictionary of [hybrid_search]. *)
Record combined_entry : Type := {
  ce_content : string;
  ce_metadata : chunk_metadata;
  ce_semantic_score : R;
  ce_tfidf_score : R
}.

(** An element of the list [hybrid_search] returns. *)
Record final_result : Type := {
  content : string;
  metadata : chunk_metadata;
  semantic_score : R;
  tfidf_score : R;
  final_score : R
}.

Definition default_overlap : Z := 50.

(** *** [chunk_text] *)

Definition chunk_text (text : string) (chunk_size overlap : Z)
  : result (list string) :=
  let words := Py.split text in
  let* starts := Py.range 0 (Z.of_nat (length words)) (chunk_size - overlap) in
  Ok (fold_left
        (fun chunks i =>
           let chunk := Py.join " " (Py.slice words i (i + chunk_size)) in
           if Py.truthy chunk then chunks ++ [chunk] else chunks)
        starts []).

(** *** [add_documents] and [clear_collection] *)

Definition newline : string := String (ascii_of_nat 10) EmptyString.

Definition enumerate {A : Type} (l : list A) : list (nat * A) :=
  combine (seq 0 (length l)) l.

(** The rows one document contributes: its chunks with their metadata and
    ids. *)
Definition document_entries (doc : document) (chunk_size : Z)
  : result (list entry) :=
  let full_text :=
    (doc_title doc ++ newline ++ newline ++ doc_content doc)%string in
  let* chunks := chunk_text full_text chunk_size default_overlap in
  Ok (map (fun '(idx, chunk) =>
             {| e_id := (doc_rule_id doc ++ "_chunk_" ++ Py.str_of_nat idx)%string;
                e_document := chunk;
                e_metadata :=
                  {| rule_id := Some (doc_rule_id doc);
                     chunk_index := Some idx;
                     title := doc_title doc;
                     section := doc_section doc;
                     effective_date := doc_effective_date doc;
                     total_chunks := length chunks |} |})
          (enumerate chunks)).

(** The store appends the new rows; with no chunk at all the call returns
    before touching it. The cache attribute is not written. *)
Definition add_documents (self : retriever) (documents : list document)
    (chunk_size : Z) : result retriever :=
  let* rows :=
    Py.foldM (fun acc doc =>
                let* es := document_entries doc chunk_size in
                Ok (acc ++ es))
             documents [] in
  match rows with
  | [] => Ok self
  | _ :: _ =>
      Ok {| collection := collection self ++ rows;
            tfidf_cache := tfidf_cache self |}
  end.

(** The collection is deleted and created again, empty. The cache
    attribute is not written. *)
Definition clear_collection (self : retriever) : retriever :=
  {| collection := [];
     tfidf_cache := tfidf_cache self |}.

(** *** TF-IDF search *)

(** [re.sub(r'[^\w\s]', ' ', text).split()] *)
Definition _tokenize (text : string) : list string :=
  Py.split
    (Py.map_string
       (fun c => if Py.is_word c || Py.is_space c then c else " "%char)
       text).

(** [doc_token_counts.get(term, 0) / total_doc_tokens if total_doc_tokens > 0 else 0] *)
Definition term_frequency (term : string) (doc_tokens : list string)
  : result R :=
  let total_doc_tokens := length doc_tokens in
  if (0 <? total_doc_tokens)%nat
  then Py.div (INR (count_occ string_dec doc_tokens term))
              (INR total_doc_tokens)
  else Ok 0%R.

(** [sum(1 for doc in all_docs if term in doc.lower())] *)
Definition doc_count (term : string) (all_docs : list string) : nat :=
  length (List.filter (fun doc => Py.contains term (Py.lower doc)) all_docs).

(** The value computed for a term that is not in the cache. *)
Definition fresh_idf (term : string) (all_docs : list string) : result R :=
  let n := doc_count term all_docs in
  if (0 <? n)%nat
  then let* ratio := Py.div (INR (length all_docs + 1)) (INR (n + 1)) in
       Py.log ratio
  else Ok 0%R.

(** One iteration of the loop over the query terms: the running score
    and the cache attribute are threaded through. *)
Definition tfidf_term (doc_tokens all_docs : list string)
    (acc : R * gmap string R) (term : string) : result (R * gmap string R) :=
  let '(score, cache) := acc in
  let* tf := term_frequency term doc_tokens in
  match cache !! term with
  | None =>
      let* idf := fresh_idf term all_docs in
      Ok ((score + tf * idf)%R, <[term := idf]> cache)
  | Some idf => Ok ((score + tf * idf)%R, cache)
  end.

Definition _calculate_tfidf_score (cache : gmap string R)
    (query_tokens doc_tokens all_docs : list string)
  : result (R * gmap string R) :=
  Py.foldM (tfidf_term doc_tokens all_docs) query_tokens (0%R, cache).

(** One iteration of the loop over the stored documents: the score of
    the document is appended, the cache is threaded through. *)
Definition score_row (query_tokens all_docs : list string)
    (acc : list tfidf_result * gmap string R) (row : entry)
  : result (list tfidf_result * gmap string R) :=
  let '(scores, cache) := acc in
  let doc_tokens := _tokenize (Py.lower (e_document row)) in
  let* '(score, cache') :=
    _calculate_tfidf_score cache query_tokens doc_tokens all_docs in
  Ok (scores ++ [{| tr_content := e_document row;
                    tr_metadata := e_metadata row;
                    tr_tfidf_score := score |}],
      cache').

Definition tfidf_search (self : retriever) (query : string) (top_k : Z)
  : result (list tfidf_result * retriever) :=
  let all_docs := map e_document (collection self) in
  match all_docs with
  | [] => Ok ([], self)
  | _ :: _ =>
      let query_tokens := _tokenize (Py.lower query) in
      let* '(scores, cache) :=
        Py.foldM (score_row query_tokens all_docs)
                 (collection self) ([], tfidf_cache self) in
      Ok (Py.slice_to (Py.sort_desc tr_tfidf_score scores) top_k,
          {| collection := collection self; tfidf_cache := cache |})
  end.

(** *** Semantic search *)

Section WithVectorStore.

(** The nearest-neighbour query of the external vector store, after the
    query text has been embedded: the rows it selects from the
    collection with their cosine distances, for a requested number of
    results. *)
Variable store_query : list entry -> string -> Z -> list (entry * R).

Definition semantic_search (self : retriever) (query : string) (top_k : Z)
  : list semantic_result :=
  map (fun '(row, distance) =>
         {| sr_content := e_document row;
            sr_metadata := e_metadata row;
            sr_distance := distance;
            sr_similarity := (1 - distance)%R |})
      (store_query (collection self) query top_k).

(** *** Hybrid search *)

(** [result['metadata'].get('rule_id', '') + str(result['metadata'].get('chunk_index', ''))] *)
Definition doc_id (md : chunk_metadata) : string :=
  (match rule_id md with Some r => r | None => EmptyString end
   ++ match chunk_index md with
      | Some i => Py.str_of_nat i
      | None => EmptyString
      end)%string.

(** First loop: every semantic result is stored under its key. *)
Definition add_semantic (combined : Py.odict combined_entry)
    (result : semantic_result) : Py.odict combined_entry :=
  Py.dict_set (doc_id (sr_metadata result))
    {| ce_content := sr_content result;
       ce_metadata := sr_metadata result;
       ce_semantic_score := sr_similarity result;
       ce_tfidf_score := 0%R |}
    combined.

(** [max([r['tfidf_score'] for r in tfidf_results]) if tfidf_results else 1.0] *)
Definition max_tfidf_of (tfidf_results : list tfidf_result) : R :=
  Py.max_or 1%R (map tr_tfidf_score tfidf_results).

(** [score / max_tfidf if max_tfidf > 0 else 0] *)
Definition normalize_tfidf (max_tfidf score : R) : result R :=
  if Py.Rltb 0 max_tfidf then Py.div score max_tfidf else Ok 0%R.

(** Second loop: a key already present has its lexical score written,
    a new key gets an entry with semantic score [0.0]. *)
Definition add_tfidf (max_tfidf : R) (combined : Py.odict combined_entry)
    (result : tfidf_result) : Py.result (Py.odict combined_entry) :=
  let key := doc_id (tr_metadata result) in
  let* normalized_tfidf := normalize_tfidf max_tfidf (tr_tfidf_score result) in
  match Py.dict_get key combined with
  | Some data =>
      Ok (Py.dict_set key
            {| ce_content := ce_content data;
               ce_metadata := ce_metadata data;
               ce_semantic_score := ce_semantic_score data;
               ce_tfidf_score := normalized_tfidf |}
            combined)
  | None =>
      Ok (Py.dict_set key
            {| ce_content := tr_content result;
               ce_metadata := tr_metadata result;
               ce_semantic_score := 0%R;
               ce_tfidf_score := normalized_tfidf |}
            combined)
  end.

(** The [combined] dictionary after both loops. *)
Definition combine (semantic_results : list semantic_result)
    (tfidf_results : list tfidf_result)
  : result (Py.odict combined_entry) :=
  Py.foldM (add_tfidf (max_tfidf_of tfidf_results)) tfidf_results
           (fold_left add_semantic semantic_results []).

Definition finalize (semantic_weight tfidf_weight : R)
    (data : combined_entry) : final_result :=
  {| content := ce_content data;
     metadata := ce_metadata data;
     semantic_score := ce_semantic_score data;
     tfidf_score := ce_tfidf_score data;
     final_score := (semantic_weight * ce_semantic_score data
                     + tfidf_weight * ce_tfidf_score data)%R |}.

(** The part of [hybrid_search] that follows the two searches:
    combination, final scores, sort and cut. *)
Definition fuse (semantic_results : list semantic_result)
    (tfidf_results : list tfidf_result) (top_k : Z)
    (semantic_weight tfidf_weight : R) : result (list final_result) :=
  let* combined := combine semantic_results tfidf_results in
  let final_results :=
    map (finalize semantic_weight tfidf_weight) (Py.dict_values combined) in
  Ok (Py.slice_to (Py.sort_desc final_score final_results) top_k).

Definition hybrid_search (self : retriever) (query : string) (top_k : Z)
    (semantic_weight tfidf_weight : R)
  : result (list final_result * retriever) :=
  let semantic_results := semantic_search self query (top_k * 2) in
  let* '(tfidf_results, self') := tfidf_search self query (top_k * 2) in
  let* ranked :=
    fuse semantic_results tfidf_results top_k semantic_weight tfidf_weight in
  Ok (ranked, self').

End WithVectorStore.

End Retriever.

(** ** [rag/embeddings.py] *)

Module Embeddings.

Local Open Scope py_scope.

(** [np.dot] of two one-dimensional arrays: the lengths must agree. *)
Fixpoint np_dot (vec1 vec2 : list R) : result R :=
  match vec1, vec2 with
  | [], [] => Ok 0%R
  | x :: vec1', y :: vec2' =>
      let* rest := np_dot vec1' vec2' in Ok (x * y + rest)%R
  | _, _ => Raise ValueError
  end.

(** [np.linalg.norm] of a one-dimensional array. *)
Definition np_norm (vec : list R) : R :=
  sqrt (fold_right (fun x acc => x * x + acc)%R 0%R vec).

Definition cosine_similarity (vec1 vec2 : list R) : result R :=
  let* dot_product := np_dot vec1 vec2 in
  let norm1 := np_norm vec1 in
  let norm2 := np_norm vec2 in
  if Py.Reqb norm1 0 || Py.Reqb norm2 0 then Ok 0%R
  else Py.div dot_product (norm1 * norm2).

End Embeddings.

(** ** [rag/claude_qa.py] *)

Module ClaudeQA.

(** A retrieved context as the evaluation reads it: the score is looked
    up with [ctx.get('final_score', 0.0)]. *)
Record context : Type := {
  ctx_content : string;
  ctx_semantic_score : option R;
  ctx_final_score : option R
}.





End ClaudeQA.

(** ** [rag/claude_qa.py]: the other retrieval metrics *)

Module Metrics.

Local Open Scope py_scope.




Definition stop_words : list string :=
  ["the"; "a"; "an"; "and"; "or"; "but"; "in"; "on"; "at"; "to"; "for";
   "is"; "are"; "was"; "were"; "be"; "been"; "being"; "have"; "has";
   "had"]%string.

(** A set of strings is a list without repetition; the code only takes
    its size and counts its members. [set(l)] and [a - b]: *)
Definition set_of (l : list string) : list string := List.nodup string_dec l.

Definition set_minus (a b : list string) : list string :=
  List.filter (fun w => negb (existsb (String.eqb w) b)) a.

Definition _calculate_faithfulness (contexts : list ClaudeQA.context)
    (answer : string) : result R :=
  let context_text :=
    Py.lower (Py.join " " (map ClaudeQA.ctx_content contexts)) in
  let answer_lower := Py.lower answer in
  let answer_words := set_minus (set_of (Py.split answer_lower)) stop_words in
  let grounded_words :=
    length (List.filter (fun word => Py.contains word context_text)
                        answer_words) in
  let* faithfulness :=
    match answer_words with
    | [] => Ok 0%R
    | _ :: _ => Py.div (INR grounded_words) (INR (length answer_words))
    end in
  Ok (Rmin faithfulness 1).

End Metrics.

(** ** [rag/embeddings.py]: the choice of the embedding provider *)

Module Provider.

(** What the initialisation finds in its environment: which libraries are
    installed, the API key variable, and whether the two constructors that
    can raise go through. *)
Record environment : Type := {
  VOYAGE_AVAILABLE : bool;
  SENTENCE_TRANSFORMERS_AVAILABLE : bool;
  VOYAGE_API_KEY : option string;
  voyage_client_starts : bool;
  local_model_loads : bool
}.

(** The attributes of an [EmbeddingService]; for the client and the model
    only their presence is kept. *)
Record service : Type := {
  provider : string;
  model_name : option string;
  client : bool;
  model : bool
}.

Inductive init_error : Type :=
| UnknownProvider      (* ValueError *)
| NoProviderAvailable  (* RuntimeError *)
| LocalModelFailed.    (* the exception of the model constructor, raised again *)

Inductive outcome : Type :=
| Ready (self : service)
| Failed (e : init_error).

(** [name or default] *)
Definition name_or (name : option string) (default : string) : string :=
  match name with
  | Some s => if Py.truthy s then s else default
  | None => default
  end.

Definition _initialize_local (env : environment) (self : service) : outcome :=
  if negb (SENTENCE_TRANSFORMERS_AVAILABLE env) then Failed NoProviderAvailable
  else if local_model_loads env then
    Ready {| provider := provider self;
             model_name := Some (name_or (model_name self) "all-MiniLM-L6-v2");
             client := client self;
             model := true |}
  else Failed LocalModelFailed.

Definition fall_back (env : environment) (self : service) : outcome :=
  _initialize_local env
    {| provider := "local";
       model_name := model_name self;
       client := client self;
       model := model self |}.

Definition _initialize_voyage (env : environment) (self : service) : outcome :=
  match VOYAGE_API_KEY env with
  | Some key =>
      if Py.truthy key then
        if voyage_client_starts env then
          Ready {| provider := provider self;
                   model_name := Some (name_or (model_name self) "voyage-2");
                   client := true;
                   model := model self |}
        else fall_back env self
      else fall_back env self
  | None => fall_back env self
  end.

Definition _initialize_provider (env : environment) (self : service) : outcome :=
  if String.eqb (provider self) "voyage" then
    if negb (VOYAGE_AVAILABLE env) then fall_back env self
    else _initialize_voyage env self
  else if String.eqb (provider self) "local" then _initialize_local env self
  else Failed UnknownProvider.

(** [EmbeddingService(provider, model_name)] *)
Definition init (env : environment) (provider_arg : string)
    (model_name_arg : option string) : outcome :=
  _initialize_provider env
    {| provider := Py.lower provider_arg;
       model_name := model_name_arg;
       client := false;
       model := false |}.

End Provider.

(** ** [data/updater.py]: the refresh of the vector database *)

Module Updater.


End Updater.

(** ** The statements of the specification that the sources contradict,
       written as the specification has them *)

Module Claimed.

(** Ceiling of [a / b] for a positive [b]. *)
Definition ceil_div (a b : Z) : Z := ((a + b - 1) / b)%Z.

(** The number of chunks the specification gives for [L] words, chunk
    size [C] and overlap [O]. *)
Definition chunk_count (L C O : Z) : Z := ceil_div (Z.max (L - O) 0) (C - O).

(** The document frequency of the specification: the number of chunks
    that have the term among their tokens. *)
Definition df (term : string) (all_docs : list string) : nat :=
  length (List.filter
            (fun doc => existsb (String.eqb term)
                                (Retriever._tokenize (Py.lower doc)))
            all_docs).

(** [ln((N + 1) / (df + 1))] *)
Definition idf (term : string) (all_docs : list string) : R :=
  ln (INR (length all_docs + 1) / INR (df term all_docs + 1)).

(** Occurrences of the term among the chunk's tokens over the number of
    tokens, [0] for an empty chunk. *)
Definition tf (term : string) (doc_tokens : list string) : R :=
  match doc_tokens with
  | [] => 0%R
  | _ :: _ =>
      (INR (count_occ string_dec doc_tokens term) / INR (length doc_tokens))%R
  end.


End Claimed.

(** ** Closed forms of the values the code computes *)

Module Formula.

Definition Rsum (l : list R) : R := fold_right Rplus 0%R l.

(** Occurrences of the term among the tokens over the number of tokens,
    and [0] without tokens. *)
Definition tf (term : string) (doc_tokens : list string) : R :=
  if (0 <? length doc_tokens)%nat
  then (INR (count_occ string_dec doc_tokens term) / INR (length doc_tokens))%R
  else 0%R.

(** [ln((N + 1) / (n + 1))] for the number [n] of documents whose
    lower-cased text contains the term as a substring, and [0] when there
    is none. *)
Definition idf (term : string) (all_docs : list string) : R :=
  if (0 <? Retriever.doc_count term all_docs)%nat
  then ln (INR (length all_docs + 1)
           / INR (Retriever.doc_count term all_docs + 1))
  else 0%R.

(** The value the loop uses for a term: the cached one when there is
    one. *)
Definition idf_used (cache : gmap string R) (all_docs : list string)
    (term : string) : R :=
  match cache !! term with
  | Some v => v
  | None => idf term all_docs
  end.

(** The cache after the loop has seen a term. *)
Definition cache_after (all_docs : list string) (cache : gmap string R)
    (term : string) : gmap string R :=
  match cache !! term with
  | Some _ => cache
  | None => <[term := idf term all_docs]> cache
  end.

Definition cache_fill (all_docs : list string) (terms : list string)
    (cache : gmap string R) : gmap string R :=
  fold_left (cache_after all_docs) terms cache.

Definition score (cache : gmap string R)
    (query_tokens doc_tokens all_docs : list string) : R :=
  Rsum (map (fun term => (tf term doc_tokens * idf_used cache all_docs term)%R)
            query_tokens).

(** Every cached value is the one the given documents give. *)
Definition cache_of (all_docs : list string) (cache : gmap string R) : Prop :=
  forall term v, cache !! term = Some v -> v = idf term all_docs.

(** [score / max_tfidf] for a positive maximum, [0] otherwise. *)
Definition normalized (max_tfidf score : R) : R :=
  if Py.Rltb 0 max_tfidf then (score / max_tfidf)%R else 0%R.

(** The distinct keys of a list, in the order in which each is first
    met. *)
Definition see (acc : list string) (k : string) : list string :=
  if existsb (String.eqb k) acc then acc else acc ++ [k].

Definition first_seen (keys : list string) : list string :=
  fold_left see keys [].



(** The dot product of two vectors of the same length. *)
Definition dot (vec1 vec2 : list R) : R :=
  Rsum (map (fun '(x, y) => (x * y)%R) (combine vec1 vec2)).

(** The order [sort(reverse=True)] establishes on the keys. *)
Definition descending {A : Type} (key : A -> R) (l : list A) : Prop :=
  StronglySorted (fun x y => (key y <= key x)%R) l.


(** The second loop of [hybrid_search] with the division carried out. *)
Definition add_tfidf (max_tfidf : R)
    (combined : Py.odict Retriever.combined_entry)
    (result : Retriever.tfidf_result) : Py.odict Retriever.combined_entry :=
  let key := Retriever.doc_id (Retriever.tr_metadata result) in
  let n := normalized max_tfidf (Retriever.tr_tfidf_score result) in
  Py.dict_set key
    match Py.dict_get key combined with
    | Some data =>
        {| Retriever.ce_content := Retriever.ce_content data;
           Retriever.ce_metadata := Retriever.ce_metadata data;
           Retriever.ce_semantic_score := Retriever.ce_semantic_score data;
           Retriever.ce_tfidf_score := n |}
    | None =>
        {| Retriever.ce_content := Retriever.tr_content result;
           Retriever.ce_metadata := Retriever.tr_metadata result;
           Retriever.ce_semantic_score := 0%R;
           Retriever.ce_tfidf_score := n |}
    end
    combined.

Definition combined (semantic_results : list Retriever.semantic_result)
    (tfidf_results : list Retriever.tfidf_result)
  : Py.odict Retriever.combined_entry :=
  fold_left (add_tfidf (Retriever.max_tfidf_of tfidf_results)) tfidf_results
            (fold_left Retriever.add_semantic semantic_results []).

Definition semantic_key (r : Retriever.semantic_result) : string :=
  Retriever.doc_id (Retriever.sr_metadata r).

Definition tfidf_key (r : Retriever.tfidf_result) : string :=
  Retriever.doc_id (Retriever.tr_metadata r).

Definition result_key (r : Retriever.final_result) : string :=
  Retriever.doc_id (Retriever.metadata r).

Definition row_key (row : Retriever.entry) : string :=
  Retriever.doc_id (Retriever.e_metadata row).

(** Every candidate is stored under the key of its own metadata. *)
Definition keyed (d : Py.odict Retriever.combined_entry) : Prop :=
  Forall (fun kv => Retriever.doc_id (Retriever.ce_metadata (snd kv)) = fst kv)
         d.


(** The result of [tfidf_search] for one stored row. *)
Definition scored_row (cache : gmap string R) (query : string)
    (all_docs : list string) (row : Retriever.entry) : Retriever.tfidf_result :=
  {| Retriever.tr_content := Retriever.e_document row;
     Retriever.tr_metadata := Retriever.e_metadata row;
     Retriever.tr_tfidf_score :=
       score cache (Retriever._tokenize (Py.lower query))
             (Retriever._tokenize (Py.lower (Retriever.e_document row)))
             all_docs |}.

(** The text [add_documents] chunks for a document, and its number of
    words. *)
Definition full_text (doc : Retriever.document) : string :=
  (Retriever.doc_title doc ++ Retriever.newline ++ Retriever.newline
   ++ Retriever.doc_content doc)%string.

Definition word_count (doc : Retriever.document) : nat :=
  length (Py.split (full_text doc)).

(** Every cached value is non-negative. *)
Definition cache_nonneg (cache : gmap string R) : Prop :=
  forall term v, cache !! term = Some v -> (0 <= v)%R.

(** Every character of a string belongs to a class. *)
Fixpoint all_chars (p : ascii -> bool) (s : string) : bool :=
  match s with
  | EmptyString => true
  | String c s' => p c && all_chars p s'
  end.

(** Both scores of a candidate lie between [0] and [1]. *)
Definition score_bounds (data : Retriever.combined_entry) : Prop :=
  (0 <= Retriever.ce_semantic_score data <= 1)%R
  /\ (0 <= Retriever.ce_tfidf_score data <= 1)%R.

(** The words of an answer that count for faithfulness: its distinct
    lower-cased words that are no stop words. *)
Definition content_words (answer : string) : list string :=
  Metrics.set_minus (Metrics.set_of (Py.split (Py.lower answer)))
                    Metrics.stop_words.

(** The text in which the words of an answer are looked up. *)
Definition context_text (contexts : list ClaudeQA.context) : string :=
  Py.lower (Py.join " " (map ClaudeQA.ctx_content contexts)).



End Formula.

(** ** A corpus refresh, as [updater.py] performs it *)

Module Refresh.

Definition rule (id text : string) : Retriever.document :=
  {| Retriever.doc_rule_id := id;
     Retriever.doc_content := text;
     Retriever.doc_title := text;
     Retriever.doc_section := "General";
     Retriever.doc_effective_date := "2023-01-01" |}.

Definition fresh_retriever : Retriever.retriever :=
  {| Retriever.collection := []; Retriever.tfidf_cache := ∅ |}.

(** The first snapshot of the corpus: two rules. *)
Definition old_rules : list Retriever.document :=
  [rule "1" "dog"; rule "2" "cat"].

(** The snapshot after the refresh: one rule. *)
Definition new_rules : list Retriever.document :=
  [rule "1" "dog"].

(** The row stored for a rule whose text is one word. *)
Definition row (id text : string) : Retriever.entry :=
  {| Retriever.e_id := (id ++ "_chunk_0")%string;
     Retriever.e_document := (text ++ " " ++ text)%string;
     Retriever.e_metadata :=
       {| Retriever.rule_id := Some id;
          Retriever.chunk_index := Some 0;
          Retriever.title := text;
          Retriever.section := "General";
          Retriever.effective_date := "2023-01-01";
          Retriever.total_chunks := 1 |} |}.

Definition ingested : Retriever.retriever :=
  {| Retriever.collection := [row "1" "dog"; row "2" "cat"];
     Retriever.tfidf_cache := ∅ |}.

Definition queried : Retriever.retriever :=
  {| Retriever.collection := [row "1" "dog"; row "2" "cat"];
     Retriever.tfidf_cache := <["dog"%string := ln (3 / 2)]> ∅ |}.

Definition refreshed : Retriever.retriever :=
  {| Retriever.collection := [row "1" "dog"];
     Retriever.tfidf_cache := <["dog"%string := ln (3 / 2)]> ∅ |}.

Definition stale_result : Retriever.tfidf_result :=
  {| Retriever.tr_content := "dog dog";
     Retriever.tr_metadata := Retriever.e_metadata (row "1" "dog");
     Retriever.tr_tfidf_score := ln (3 / 2) |}.

End Refresh.

(** ** Concrete inputs *)

Module Example.

Definition meta (id : string) (idx : nat) : Retriever.chunk_metadata :=
  {| Retriever.rule_id := Some id;
     Retriever.chunk_index := Some idx;
     Retriever.title := "Rule";
     Retriever.section := "General";
     Retriever.effective_date := "2023-01-01";
     Retriever.total_chunks := S idx |}.

Definition semantic (text id : string) (idx : nat) (similarity : R)
  : Retriever.semantic_result :=
  {| Retriever.sr_content := text;
     Retriever.sr_metadata := meta id idx;
     Retriever.sr_distance := (1 - similarity)%R;
     Retriever.sr_similarity := similarity |}.

Definition lexical (text id : string) (idx : nat) (score : R)
  : Retriever.tfidf_result :=
  {| Retriever.tr_content := text;
     Retriever.tr_metadata := meta id idx;
     Retriever.tr_tfidf_score := score |}.

(** Chunk 10 of rule 1 and chunk 0 of rule 11. *)
Definition rule1_chunk10 : Retriever.semantic_result :=
  semantic "the game" "1" 10 0.9.

Definition rule11_chunk0 : Retriever.semantic_result :=
  semantic "ball at rest moved" "11" 0 0.4.

(** Rule 1 with eleven words in title and content, and rule 11 with one
    word: with a chunk size of 51 and the overlap of 50 the first gives
    eleven chunks, the second one. *)
Definition rules : list Retriever.document :=
  [ {| Retriever.doc_rule_id := "1";
       Retriever.doc_content := "play the course as you find it and the ball";
       Retriever.doc_title := "game";
       Retriever.doc_section := "General";
       Retriever.doc_effective_date := "2023-01-01" |};
    {| Retriever.doc_rule_id := "11";
       Retriever.doc_content := "";
       Retriever.doc_title := "motion";
       Retriever.doc_section := "General";
       Retriever.doc_effective_date := "2023-01-01" |} ].

(** A vector store that answers every query with the first rows of the
    collection, at distance [0]. *)
Definition store (rows : list Retriever.entry) (query : string) (n_results : Z)
  : list (Retriever.entry * R) :=
  map (fun row => (row, 0%R)) (Py.slice_to rows n_results).

(** An environment where the voyage library is installed but no API key is
    set, and the local model loads; the service it leads to. *)
Definition no_key : Provider.environment :=
  {| Provider.VOYAGE_AVAILABLE := true;
     Provider.SENTENCE_TRANSFORMERS_AVAILABLE := true;
     Provider.VOYAGE_API_KEY := None;
     Provider.voyage_client_starts := true;
     Provider.local_model_loads := true |}.

Definition local_service : Provider.service :=
  {| Provider.provider := "local";
     Provider.model_name := Some "all-MiniLM-L6-v2"%string;
     Provider.client := false;
     Provider.model := true |}.

End Example.

(** A word: non-empty and free of whitespace. *)
Fixpoint no_space (s : string) : bool :=
  match s with
  | EmptyString => true
  | String c s' => negb (Py.is_space c) && no_space s'
  end.

Definition word (s : string) : Prop :=
  Py.truthy s = true /\ no_space s = true.

(** * Properties *)

(** ** Strings: [split] and [join] *)

Lemma word_cons c w :
  word (String c w) -> Py.is_space c = false /\ (w = EmptyString \/ word w).
Proof.
  intros [_ Hns]. simpl in Hns. apply andb_prop in Hns as [Hc Hw].
  split; [now apply negb_true_iff|].
  destruct w as [|c' w']; [now left|right]. now split.
Qed.

Lemma word_starts w : word w -> Py.starts_with_space w = false.
Proof.
  destruct w as [|c w]; intros [Ht Hns]; [discriminate|].
  simpl in *. apply andb_prop in Hns as [Hc _]. now apply negb_true_iff.
Qed.

Lemma split_word w : word w -> Py.split w = [w].
Proof.
  induction w as [|c w IH]; intros Hw; [destruct Hw; discriminate|].
  destruct (word_cons _ _ Hw) as [Hc [-> | Hw']]; simpl; rewrite Hc.
  - reflexivity.
  - rewrite (word_starts _ Hw'), (IH Hw'). reflexivity.
Qed.

Lemma split_word_space w rest :
  word w -> Py.split (w ++ String " " rest) = w :: Py.split rest.
Proof.
  induction w as [|c w IH]; intros Hw; [destruct Hw; discriminate|].
  destruct (word_cons _ _ Hw) as [Hc [-> | Hw']]; simpl; rewrite Hc.
  - reflexivity.
  - rewrite (IH Hw').
    destruct w as [|c' w']; [destruct Hw'; discriminate|].
    simpl. apply word_starts in Hw'. simpl in Hw'. now rewrite Hw'.
Qed.

Lemma split_words s : Forall word (Py.split s).
Proof.
  induction s as [|c s IH]; simpl; [constructor|].
  destruct (Py.is_space c) eqn:Hc; [exact IH|].
  assert (Hone : word (String c EmptyString)).
  { split; simpl; [reflexivity|]. now rewrite Hc. }
  destruct (Py.starts_with_space s); [now constructor|].
  destruct (Py.split s) as [|w ws]; [constructor; [exact Hone|constructor]|].
  inversion IH as [|? ? [Hw1 Hw2] Hws]; subst.
  constructor; [|exact Hws].
  split; simpl; [reflexivity|]. now rewrite Hc, Hw2.
Qed.

Lemma split_join ws : Forall word ws -> Py.split (Py.join " " ws) = ws.
Proof.
  induction ws as [|w ws IH]; intros Hws; [reflexivity|].
  inversion Hws as [|? ? Hw Hws']; subst.
  destruct ws as [|w' ws'].
  - simpl. now apply split_word.
  - change (Py.join " " (w :: w' :: ws'))
      with (w ++ String " " (Py.join " " (w' :: ws')))%string.
    rewrite (split_word_space _ _ Hw), (IH Hws'). reflexivity.
Qed.

Lemma truthy_append a b : Py.truthy a = true -> Py.truthy (a ++ b) = true.
Proof. destruct a; [discriminate|reflexivity]. Qed.

Lemma truthy_join ws :
  Forall word ws -> Py.truthy (Py.join " " ws) = negb (Nat.eqb (length ws) 0).
Proof.
  intros Hws. destruct ws as [|w ws]; [reflexivity|].
  inversion Hws as [|? ? [Hw _] _]; subst.
  destruct ws; simpl; [exact Hw|]. now apply truthy_append.
Qed.

(** ** Integers: [range], slices and ceilings *)

Lemma ceil_div_spec a b q :
  (0 < b)%Z -> Claimed.ceil_div a b = q <-> (b * (q - 1) < a <= b * q)%Z.
Proof.
  intros Hb. unfold Claimed.ceil_div. split.
  - intros <-.
    pose proof (Z.div_mod (a + b - 1) b ltac:(lia)) as Hdm.
    pose proof (Z.mod_pos_bound (a + b - 1) b Hb) as Hm. nia.
  - intros [Hlo Hhi]. symmetry. apply (Z.div_unique _ _ _ (a + b - 1 - b * q)%Z); lia.
Qed.

Lemma ceil_div_bounds a b :
  (0 < b)%Z ->
  (b * (Claimed.ceil_div a b - 1) < a <= b * Claimed.ceil_div a b)%Z.
Proof. intros Hb. now apply ceil_div_spec. Qed.

Lemma range_len_ceil n step :
  (0 <= n)%Z -> (0 < step)%Z -> Py.range_len 0 n step = Claimed.ceil_div n step.
Proof.
  intros Hn Hs. unfold Py.range_len.
  destruct (0 <? step)%Z eqn:E; [|apply Z.ltb_ge in E; lia]. clear E.
  symmetry. apply ceil_div_spec; [exact Hs|].
  destruct (0 <? n)%Z eqn:E.
  - apply Z.ltb_lt in E.
    pose proof (Z.div_mod (n - 1 - 0) step ltac:(lia)) as Hdm.
    pose proof (Z.mod_pos_bound (n - 1 - 0) step Hs) as Hm. nia.
  - apply Z.ltb_ge in E. lia.
Qed.

Lemma range_nonpos_step n step :
  (0 <= n)%Z -> (step < 0)%Z -> Py.range 0 n step = Ok [].
Proof.
  intros Hn Hs. unfold Py.range, Py.range_len.
  destruct (step =? 0)%Z eqn:E0; [apply Z.eqb_eq in E0; lia|].
  destruct (0 <? step)%Z eqn:E1; [apply Z.ltb_lt in E1; lia|].
  destruct (n <? 0)%Z eqn:E2; [apply Z.ltb_lt in E2; lia|]. reflexivity.
Qed.

Lemma slice_nat {A : Type} (l : list A) (i c : nat) :
  Py.slice l (Z.of_nat i) (Z.of_nat i + Z.of_nat c) = firstn c (skipn i l).
Proof.
  unfold Py.slice, Py.slice_index.
  destruct (Z.of_nat i <? 0)%Z eqn:E1; [apply Z.ltb_lt in E1; lia|].
  destruct (Z.of_nat i + Z.of_nat c <? 0)%Z eqn:E2; [apply Z.ltb_lt in E2; lia|].
  clear E1 E2.
  destruct (Nat.le_gt_cases i (length l)) as [Hi | Hi].
  - replace (Z.to_nat (Z.min (Z.of_nat i) (Z.of_nat (length l)))) with i by lia.
    destruct (Nat.le_gt_cases (i + c) (length l)) as [Hc | Hc].
    + f_equal. lia.
    + rewrite (firstn_all2 (n := c)) by (rewrite length_skipn; lia).
      apply firstn_all2. rewrite length_skipn. lia.
  - rewrite !skipn_all2 by lia. now rewrite !firstn_nil.
Qed.

Lemma fold_left_collect {A B : Type} (f : A -> bool) (g : A -> B) l acc :
  fold_left (fun chunks i => if f i then chunks ++ [g i] else chunks) l acc
  = acc ++ map g (List.filter f l).
Proof.
  revert acc. induction l as [|x l IH]; intros acc; simpl.
  - now rewrite app_nil_r.
  - rewrite IH. destruct (f x); simpl; [|reflexivity].
    now rewrite <- app_assoc.
Qed.

(** Cutting a list into consecutive pieces of [s] elements and gluing the
    pieces gives the list back as soon as the pieces reach its end. *)
Lemma concat_pieces {A : Type} (s : nat) (Hs : 0 < s) (m : nat) (l : list A) :
  length l <= m * s ->
  concat (map (fun k => firstn s (skipn (k * s) l)) (seq 0 m)) = l.
Proof.
  revert l. induction m as [|m IH]; intros l Hl.
  - destruct l; [reflexivity|simpl in Hl; lia].
  - rewrite <- cons_seq, <- seq_shift. cbn [map concat]. rewrite map_map.
    change (0 * s) with 0. cbn [skipn].
    transitivity (firstn s l ++ skipn s l); [|apply firstn_skipn].
    f_equal.
    etransitivity; [|apply (IH (skipn s l)); rewrite length_skipn; lia].
    f_equal. apply map_ext. intros k.
    rewrite skipn_skipn. do 2 f_equal. lia.
Qed.

(** ** Chunking *)

Lemma slice_window {A : Type} (l : list A) (k : nat) (C O : Z) :
  (0 <= O < C)%Z ->
  Py.slice l (0 + Z.of_nat k * (C - O)) (0 + Z.of_nat k * (C - O) + C)
  = firstn (Z.to_nat C) (skipn (k * Z.to_nat (C - O)) l).
Proof.
  intros H.
  rewrite <- (slice_nat l (k * Z.to_nat (C - O)) (Z.to_nat C)).
  f_equal; nia.
Qed.

Lemma window_nonempty {A : Type} (l : list A) (k : nat) (C O : Z) :
  (0 <= O < C)%Z ->
  k < Z.to_nat (Claimed.ceil_div (Z.of_nat (length l)) (C - O)) ->
  0 < length (firstn (Z.to_nat C) (skipn (k * Z.to_nat (C - O)) l)).
Proof.
  intros H Hk.
  pose proof (ceil_div_bounds (Z.of_nat (length l)) (C - O) ltac:(lia)) as Hc.
  rewrite length_firstn, length_skipn. nia.
Qed.

(** With a valid overlap every window start yields a chunk: the chunks are
    the windows of [chunk_size] words taken every [chunk_size - overlap]
    words. *)
Lemma chunk_text_windows text (C O : Z) :
  (0 <= O < C)%Z ->
  Retriever.chunk_text text C O
  = Ok (map (fun k => Py.join " "
                        (firstn (Z.to_nat C)
                                (skipn (k * Z.to_nat (C - O)) (Py.split text))))
            (seq 0 (Z.to_nat (Claimed.ceil_div
                                (Z.of_nat (length (Py.split text))) (C - O))))).
Proof.
  intros H. unfold Retriever.chunk_text, Py.range.
  destruct (C - O =? 0)%Z eqn:E; [apply Z.eqb_eq in E; lia|]. clear E.
  cbn [Py.bind]. rewrite range_len_ceil by lia. f_equal.
  rewrite (fold_left_collect
             (fun i => Py.truthy (Py.join " " (Py.slice (Py.split text) i (i + C))))
             (fun i => Py.join " " (Py.slice (Py.split text) i (i + C)))).
  cbn [app]. rewrite forallb_filter_id.
  - rewrite map_map. apply map_ext. intros k. now rewrite slice_window.
  - apply forallb_forall. intros i Hi.
    apply in_map_iff in Hi as [k [<- Hk]]. apply in_seq in Hk.
    rewrite slice_window by exact H.
    rewrite truthy_join
      by (apply Forall_take, Forall_drop, split_words).
    apply negb_true_iff, Nat.eqb_neq.
    pose proof (window_nonempty (Py.split text) k C O H ltac:(lia)). lia.
Qed.

(** C2 (as amended). For a text of [L] words and [0 <= O < C], chunking
    succeeds with exactly [ceil(L / (C - O))] chunks, a text without words
    gives no chunk, and the first [C - O] words of the chunks, glued in
    order, are the words of the text. *)
Theorem chunk_text_count_and_cover (text : string) (C O : Z) :
  (0 <= O < C)%Z ->
  exists chunks,
    Retriever.chunk_text text C O = Ok chunks
    /\ Z.of_nat (length chunks)
       = Claimed.ceil_div (Z.of_nat (length (Py.split text))) (C - O)
    /\ (Py.split text = [] -> chunks = [])
    /\ concat (map (fun chunk => firstn (Z.to_nat (C - O)) (Py.split chunk))
                   chunks)
       = Py.split text.
Proof.
  intros H. eexists. split; [apply chunk_text_windows; exact H|].
  set (words := Py.split text).
  set (m := Z.to_nat (Claimed.ceil_div (Z.of_nat (length words)) (C - O))).
  assert (Hm : Z.of_nat m = Claimed.ceil_div (Z.of_nat (length words)) (C - O)).
  { pose proof (ceil_div_bounds (Z.of_nat (length words)) (C - O) ltac:(lia))
      as Hc. subst m. nia. }
  split; [|split].
  - now rewrite length_map, length_seq.
  - intros Hnil. subst m. rewrite Hnil. cbn [length].
    replace (Claimed.ceil_div (Z.of_nat 0) (C - O)) with 0%Z; [reflexivity|].
    symmetry. apply ceil_div_spec; lia.
  - rewrite map_map.
    etransitivity;
      [|apply (concat_pieces (Z.to_nat (C - O)) ltac:(lia) m words)].
    + f_equal. apply map_ext. intros k.
      rewrite split_join by (apply Forall_take, Forall_drop, split_words).
      rewrite firstn_firstn. f_equal. lia.
    + pose proof (ceil_div_bounds (Z.of_nat (length words)) (C - O) ltac:(lia))
        as Hc. nia.
Qed.

Lemma chunk_text_count_and_cover_witness :
  exists chunks,
    Retriever.chunk_text "play the ball as it lies" 4 1 = Ok chunks
    /\ Z.of_nat (length chunks) = Claimed.ceil_div 6 3
    /\ (Py.split "play the ball as it lies" = [] -> chunks = [])
    /\ concat (map (fun chunk => firstn 3 (Py.split chunk)) chunks)
       = Py.split "play the ball as it lies".
Proof.
  apply (chunk_text_count_and_cover "play the ball as it lies" 4 1). lia.
Defined.

(** C2 (as stated) fails: three words with chunk size 2 and overlap 1 give
    three chunks, where the stated formula gives two. *)
Lemma chunk_count_counterexample :
  (1 < 2)%Z
  /\ Py.split "a b c" = ["a"; "b"; "c"]%string
  /\ Retriever.chunk_text "a b c" 2 1 = Ok ["a b"; "b c"; "c"]%string
  /\ Claimed.chunk_count 3 2 1 = 2%Z.
Proof. repeat split; reflexivity. Qed.

(** C1 (as amended). With [overlap = chunk_size] chunking raises
    [ValueError] (the zero step of [range]); with [overlap > chunk_size] it
    returns the empty list without raising. *)
Theorem chunk_text_overlap_not_below_size (text : string) (C O : Z) :
  (C <= O)%Z ->
  Retriever.chunk_text text C O
  = if (C =? O)%Z then Raise ValueError else Ok [].
Proof.
  intros H. unfold Retriever.chunk_text.
  destruct (C =? O)%Z eqn:E.
  - apply Z.eqb_eq in E. subst O. unfold Py.range.
    now rewrite Z.sub_diag.
  - apply Z.eqb_neq in E. rewrite range_nonpos_step by lia. reflexivity.
Qed.

Lemma chunk_text_overlap_not_below_size_witness :
  Retriever.chunk_text "play the ball as it lies" 3 3 = Raise ValueError
  /\ Retriever.chunk_text "play the ball as it lies" 3 5 = Ok [].
Proof.
  split.
  - apply (chunk_text_overlap_not_below_size "play the ball as it lies" 3 3). lia.
  - apply (chunk_text_overlap_not_below_size "play the ball as it lies" 3 5). lia.
Defined.

(** C1 (as stated) fails: an overlap above the chunk size is not rejected,
    the call returns an empty list. *)
Lemma chunk_text_overlap_counterexample :
  (2 <= 3)%Z
  /\ Retriever.chunk_text "a b c" 2 3 = Ok []
  /\ ~ (exists e, Retriever.chunk_text "a b c" 2 3 = Raise e).
Proof.
  split; [lia|]. split; [reflexivity|]. intros [e He]. discriminate He.
Qed.

(** ** Floats as reals: the guarded operations *)

Lemma Rltb_true x y : (x < y)%R -> Py.Rltb x y = true.
Proof. intros H. unfold Py.Rltb. destruct (Rlt_dec x y); [reflexivity|contradiction]. Qed.



Lemma Reqb_false x y : x <> y -> Py.Reqb x y = false.
Proof. intros H. unfold Py.Reqb. destruct (Req_dec_T x y); [contradiction|reflexivity]. Qed.

Lemma div_ok a b : b <> 0%R -> Py.div a b = Ok (a / b)%R.
Proof. intros H. unfold Py.div. now rewrite Reqb_false. Qed.

Lemma log_ok x : (0 < x)%R -> Py.log x = Ok (ln x).
Proof. intros H. unfold Py.log. now rewrite Rltb_true. Qed.

(** ** TF-IDF *)

Lemma term_frequency_ok term doc_tokens :
  Retriever.term_frequency term doc_tokens = Ok (Formula.tf term doc_tokens).
Proof.
  unfold Retriever.term_frequency, Formula.tf.
  destruct (0 <? length doc_tokens)%nat eqn:E; [|reflexivity].
  apply Nat.ltb_lt in E. apply div_ok, not_0_INR. lia.
Qed.

Lemma fresh_idf_ok term all_docs :
  Retriever.fresh_idf term all_docs = Ok (Formula.idf term all_docs).
Proof.
  unfold Retriever.fresh_idf, Formula.idf.
  destruct (0 <? Retriever.doc_count term all_docs)%nat; [|reflexivity].
  rewrite div_ok by (apply not_0_INR; lia). cbn [Py.bind].
  apply log_ok, Rdiv_lt_0_compat; apply lt_0_INR; lia.
Qed.

Lemma tfidf_term_ok doc_tokens all_docs score cache term :
  Retriever.tfidf_term doc_tokens all_docs (score, cache) term
  = Ok ((score + Formula.tf term doc_tokens
                 * Formula.idf_used cache all_docs term)%R,
        Formula.cache_after all_docs cache term).
Proof.
  unfold Retriever.tfidf_term, Formula.idf_used, Formula.cache_after.
  rewrite term_frequency_ok. cbn [Py.bind].
  destruct (cache !! term); [reflexivity|].
  rewrite fresh_idf_ok. reflexivity.
Qed.

Lemma idf_used_after all_docs cache term t :
  Formula.idf_used (Formula.cache_after all_docs cache term) all_docs t
  = Formula.idf_used cache all_docs t.
Proof.
  unfold Formula.cache_after, Formula.idf_used.
  destruct (cache !! term) eqn:E; [reflexivity|].
  destruct (decide (term = t)) as [->|Hne].
  - now rewrite lookup_insert_eq, E.
  - now rewrite lookup_insert_ne.
Qed.

Lemma idf_used_fill all_docs terms cache t :
  Formula.idf_used (Formula.cache_fill all_docs terms cache) all_docs t
  = Formula.idf_used cache all_docs t.
Proof.
  revert cache. induction terms as [|term terms IH]; intros cache; [reflexivity|].
  unfold Formula.cache_fill in *. cbn [fold_left].
  now rewrite IH, idf_used_after.
Qed.

Lemma fold_tfidf_term doc_tokens all_docs query_tokens score cache :
  Py.foldM (Retriever.tfidf_term doc_tokens all_docs) query_tokens (score, cache)
  = Ok ((score + Formula.score cache query_tokens doc_tokens all_docs)%R,
        Formula.cache_fill all_docs query_tokens cache).
Proof.
  revert score cache.
  induction query_tokens as [|term terms IH]; intros score cache.
  - cbn. f_equal. f_equal. unfold Formula.score, Formula.Rsum. cbn. lra.
  - cbn [Py.foldM]. rewrite tfidf_term_ok. cbn [Py.bind]. rewrite IH.
    f_equal. f_equal. unfold Formula.score, Formula.Rsum. cbn [map fold_right].
    rewrite Rplus_assoc. f_equal. f_equal. f_equal.
    apply map_ext. intros t. now rewrite idf_used_after.
Qed.

(** The score is the sum over the query terms of the term frequency times
    the inverse document frequency in use, and the loop leaves in the cache
    a value for every query term. No division is ever by zero. *)
Lemma calculate_tfidf_score_ok cache query_tokens doc_tokens all_docs :
  Retriever._calculate_tfidf_score cache query_tokens doc_tokens all_docs
  = Ok (Formula.score cache query_tokens doc_tokens all_docs,
        Formula.cache_fill all_docs query_tokens cache).
Proof.
  unfold Retriever._calculate_tfidf_score. rewrite fold_tfidf_term.
  f_equal. f_equal. lra.
Qed.

Lemma cache_after_keeps all_docs cache term t :
  is_Some (cache !! t) -> is_Some (Formula.cache_after all_docs cache term !! t).
Proof.
  intros Ht. unfold Formula.cache_after.
  destruct (cache !! term) eqn:E; [exact Ht|].
  destruct (decide (term = t)) as [->|Hne].
  - rewrite lookup_insert_eq. eauto.
  - now rewrite lookup_insert_ne.
Qed.

Lemma cache_fill_keeps all_docs terms cache t :
  is_Some (cache !! t) -> is_Some (Formula.cache_fill all_docs terms cache !! t).
Proof.
  revert cache. induction terms as [|term terms IH]; intros cache Ht; [exact Ht|].
  apply (IH (Formula.cache_after all_docs cache term)).
  now apply cache_after_keeps.
Qed.

Lemma cache_fill_has all_docs terms cache t :
  In t terms -> is_Some (Formula.cache_fill all_docs terms cache !! t).
Proof.
  revert cache. induction terms as [|term terms IH]; intros cache Hin; [destruct Hin|].
  destruct Hin as [->|Hin]; [|now apply IH].
  apply (cache_fill_keeps all_docs terms (Formula.cache_after all_docs cache t)).
  unfold Formula.cache_after.
  destruct (cache !! t) eqn:E; [rewrite E; eauto|].
  rewrite lookup_insert_eq. eauto.
Qed.

Lemma cache_fill_hit all_docs terms cache :
  (forall t, In t terms -> is_Some (cache !! t)) ->
  Formula.cache_fill all_docs terms cache = cache.
Proof.
  induction terms as [|term terms IH]; intros Hall; [reflexivity|].
  unfold Formula.cache_fill in *. cbn [fold_left].
  unfold Formula.cache_after at 2.
  destruct (Hall term (or_introl eq_refl)) as [v ->].
  apply IH. intros t Ht. apply Hall. now right.
Qed.

Lemma cache_fill_idem all_docs terms cache :
  Formula.cache_fill all_docs terms (Formula.cache_fill all_docs terms cache)
  = Formula.cache_fill all_docs terms cache.
Proof. apply cache_fill_hit. intros t Ht. now apply cache_fill_has. Qed.

Lemma score_fill all_docs terms cache query_tokens doc_tokens :
  Formula.score (Formula.cache_fill all_docs terms cache)
                query_tokens doc_tokens all_docs
  = Formula.score cache query_tokens doc_tokens all_docs.
Proof.
  unfold Formula.score. f_equal. apply map_ext. intros t.
  now rewrite idf_used_fill.
Qed.



Lemma cache_of_idf_used all_docs cache term :
  Formula.cache_of all_docs cache ->
  Formula.idf_used cache all_docs term = Formula.idf term all_docs.
Proof.
  intros Hc. unfold Formula.idf_used.
  destruct (cache !! term) eqn:E; [now apply Hc|reflexivity].
Qed.

Lemma cache_of_empty all_docs : Formula.cache_of all_docs ∅.
Proof. intros t v H. now rewrite lookup_empty in H. Qed.




Lemma score_row_ok query all_docs scores cache row :
  Retriever.score_row (Retriever._tokenize (Py.lower query)) all_docs
                      (scores, cache) row
  = Ok (scores ++ [Formula.scored_row cache query all_docs row],
        Formula.cache_fill all_docs (Retriever._tokenize (Py.lower query)) cache).
Proof.
  unfold Retriever.score_row. rewrite calculate_tfidf_score_ok. reflexivity.
Qed.

Lemma scored_row_fill all_docs terms cache query row :
  Formula.scored_row (Formula.cache_fill all_docs terms cache) query all_docs row
  = Formula.scored_row cache query all_docs row.
Proof. unfold Formula.scored_row. now rewrite score_fill. Qed.

Lemma fold_score_row query all_docs rows scores cache :
  Py.foldM (Retriever.score_row (Retriever._tokenize (Py.lower query)) all_docs)
           rows (scores, cache)
  = Ok (scores ++ map (Formula.scored_row cache query all_docs) rows,
        match rows with
        | [] => cache
        | _ :: _ =>
            Formula.cache_fill all_docs
              (Retriever._tokenize (Py.lower query)) cache
        end).
Proof.
  revert scores cache. induction rows as [|row rows IH]; intros scores cache.
  - cbn. now rewrite app_nil_r.
  - cbn [Py.foldM]. rewrite score_row_ok. cbn [Py.bind]. rewrite IH.
    f_equal. f_equal.
    + rewrite <- app_assoc. cbn [app map]. do 2 f_equal.
      apply map_ext. intros r. apply scored_row_fill.
    + destruct rows; [reflexivity|]. apply cache_fill_idem.
Qed.

(** The lexical search never raises: on an empty collection it returns
    the empty list, otherwise every stored row is scored, the rows are
    sorted by descending score and cut to [top_k], and the cache is filled
    for the terms of the query. *)
Lemma tfidf_search_ok self query top_k :
  Retriever.tfidf_search self query top_k
  = match Retriever.collection self with
    | [] => Ok ([], self)
    | _ :: _ =>
        Ok (Py.slice_to
              (Py.sort_desc Retriever.tr_tfidf_score
                 (map (Formula.scored_row (Retriever.tfidf_cache self) query
                         (map Retriever.e_document (Retriever.collection self)))
                      (Retriever.collection self)))
              top_k,
            {| Retriever.collection := Retriever.collection self;
               Retriever.tfidf_cache :=
                 Formula.cache_fill
                   (map Retriever.e_document (Retriever.collection self))
                   (Retriever._tokenize (Py.lower query))
                   (Retriever.tfidf_cache self) |})
    end.
Proof.
  unfold Retriever.tfidf_search.
  destruct (Retriever.collection self) as [|row rows] eqn:E; [reflexivity|].
  cbn [map]. rewrite <- E at 1.
  change (Retriever.e_document row :: map Retriever.e_document rows)
    with (map Retriever.e_document (row :: rows)).
  rewrite E, fold_score_row. reflexivity.
Qed.

(** Neither clearing nor ingestion writes the cache. *)
Lemma clear_collection_keeps_cache self :
  Retriever.tfidf_cache (Retriever.clear_collection self)
  = Retriever.tfidf_cache self.
Proof. reflexivity. Qed.

Lemma add_documents_keeps_cache self documents chunk_size self' :
  Retriever.add_documents self documents chunk_size = Ok self' ->
  Retriever.tfidf_cache self' = Retriever.tfidf_cache self.
Proof.
  unfold Retriever.add_documents.
  destruct (Py.foldM _ documents []) as [rows|e]; cbn [Py.bind]; [|discriminate].
  destruct rows; intros [= <-]; reflexivity.
Qed.

Lemma ln_3_2_pos : (0 < ln (3 / 2))%R.
Proof. rewrite <- ln_1. apply ln_increasing; lra. Qed.

(** C4 fails on the code. The corpus of two rules is queried for "dog",
    which caches [ln(3/2)] for the term; the corpus is cleared and one rule
    is ingested again; the cache still holds [ln(3/2)], and the next query
    scores the only chunk [ln(3/2)], where the new snapshot gives
    [ln(2/2) = 0]. *)
Theorem stale_idf_after_refresh :
  Retriever.add_documents Refresh.fresh_retriever Refresh.old_rules 512
  = Ok Refresh.ingested
  /\ (exists results,
        Retriever.tfidf_search Refresh.ingested "dog" 5
        = Ok (results, Refresh.queried))
  /\ Retriever.add_documents (Retriever.clear_collection Refresh.queried)
                              Refresh.new_rules 512
     = Ok Refresh.refreshed
  /\ Retriever.tfidf_cache Refresh.refreshed !! "dog"%string = Some (ln (3 / 2))
  /\ Retriever.tfidf_search Refresh.refreshed "dog" 5
     = Ok ([Refresh.stale_result], Refresh.refreshed)
  /\ Formula.score ∅ ["dog"]%string ["dog"; "dog"]%string ["dog dog"]%string
     = 0%R
  /\ Retriever.tr_tfidf_score Refresh.stale_result <> 0%R.
Proof.
  assert (Hidf : Formula.idf "dog" ["dog dog"; "cat cat"]%string = ln (3 / 2)).
  { unfold Formula.idf.
    change (Retriever.doc_count "dog" ["dog dog"; "cat cat"]%string) with 1.
    cbn [Nat.ltb Nat.leb length Nat.add]. f_equal.
    change (INR 3) with (1 + 1 + 1)%R. change (INR 2) with (1 + 1)%R. lra. }
  assert (Htf : Formula.tf "dog" ["dog"; "dog"]%string = 1%R).
  { unfold Formula.tf.
    change (count_occ string_dec ["dog"; "dog"]%string "dog") with 2.
    cbn [length Nat.ltb Nat.leb]. change (INR 2) with (1 + 1)%R. lra. }
  assert (Hfill :
    Formula.cache_fill ["dog dog"; "cat cat"]%string ["dog"]%string ∅
    = <["dog"%string := ln (3 / 2)]> ∅).
  { unfold Formula.cache_fill, Formula.cache_after. cbn [fold_left].
    now rewrite lookup_empty, Hidf. }
  assert (Hhit :
    Formula.cache_fill ["dog dog"]%string ["dog"]%string
      (<["dog"%string := ln (3 / 2)]> ∅)
    = <["dog"%string := ln (3 / 2)]> ∅).
  { unfold Formula.cache_fill, Formula.cache_after. cbn [fold_left].
    now rewrite lookup_insert_eq. }
  split; [reflexivity|].
  split.
  { eexists. rewrite tfidf_search_ok. unfold Refresh.ingested, Refresh.queried.
    cbn [Retriever.collection Retriever.tfidf_cache map Retriever.e_document
         Refresh.row].
    change (Retriever._tokenize (Py.lower "dog")) with ["dog"]%string.
    change ("dog" +:+ " " +:+ "dog") with "dog dog"%string.
    change ("cat" +:+ " " +:+ "cat") with "cat cat"%string.
    rewrite Hfill. reflexivity. }
  split; [reflexivity|].
  split; [apply lookup_insert_eq|].
  split.
  { rewrite tfidf_search_ok. unfold Refresh.refreshed.
    cbn [Retriever.collection Retriever.tfidf_cache map Retriever.e_document
         Refresh.row].
    change (Retriever._tokenize (Py.lower "dog")) with ["dog"]%string.
    change ("dog" +:+ " " +:+ "dog") with "dog dog"%string.
    rewrite Hhit. f_equal. f_equal.
    unfold Formula.scored_row, Formula.score, Formula.Rsum, Formula.idf_used.
    cbn [Retriever.e_document Refresh.row map fold_right].
    change ("dog" +:+ " " +:+ "dog") with "dog dog"%string.
    change (Retriever._tokenize (Py.lower "dog dog"))
      with ["dog"; "dog"]%string.
    change (Retriever._tokenize (Py.lower "dog")) with ["dog"]%string.
    cbn [map foldr].
    rewrite lookup_insert_eq, Htf.
    replace (1 * ln (3 / 2) + 0)%R with (ln (3 / 2)) by lra.
    reflexivity. }
  split.
  - unfold Formula.score, Formula.Rsum, Formula.idf_used. cbn [map fold_right].
    rewrite lookup_empty. unfold Formula.idf.
    change (Retriever.doc_count "dog" ["dog dog"]%string) with 1.
    cbn [Nat.ltb Nat.leb length Nat.add].
    replace (INR 2 / INR 2)%R with 1%R
      by (change (INR 2) with (1 + 1)%R; lra).
    rewrite ln_1. lra.
  - cbn [Retriever.tr_tfidf_score Refresh.stale_result].
    pose proof ln_3_2_pos. lra.
Qed.

(** ** Sorting and cutting *)

Lemma insert_desc_perm {A : Type} (key : A -> R) x l :
  Permutation (Py.insert_desc key x l) (x :: l).
Proof.
  induction l as [|y l IH]; cbn [Py.insert_desc]; [reflexivity|].
  destruct (Py.Rltb (key x) (key y)); [|reflexivity].
  rewrite IH. apply perm_swap.
Qed.

Lemma sort_desc_perm {A : Type} (key : A -> R) l :
  Permutation (Py.sort_desc key l) l.
Proof.
  induction l as [|x l IH]; [reflexivity|].
  unfold Py.sort_desc in *. cbn [fold_right].
  rewrite insert_desc_perm. now constructor.
Qed.

Lemma sort_desc_length {A : Type} (key : A -> R) l :
  length (Py.sort_desc key l) = length l.
Proof. apply Permutation_length, sort_desc_perm. Qed.

Lemma insert_desc_sorted {A : Type} (key : A -> R) x l :
  Formula.descending key l -> Formula.descending key (Py.insert_desc key x l).
Proof.
  unfold Formula.descending.
  induction 1 as [|y l Hl IH Hy]; cbn [Py.insert_desc].
  - repeat constructor.
  - unfold Py.Rltb. destruct (Rlt_dec (key x) (key y)) as [Hlt|Hge].
    + constructor; [exact IH|].
      apply (Permutation_Forall (Permutation_sym (insert_desc_perm key x l))).
      constructor; [lra|exact Hy].
    + constructor; [now constructor|].
      constructor; [lra|].
      eapply Forall_impl; [exact Hy|].
      intros z Hz. cbn beta in Hz. lra.
Qed.

Lemma sort_desc_sorted {A : Type} (key : A -> R) l :
  Formula.descending key (Py.sort_desc key l).
Proof.
  induction l as [|x l IH]; [constructor|].
  unfold Py.sort_desc in *. cbn [fold_right]. now apply insert_desc_sorted.
Qed.



Lemma slice_to_firstn {A : Type} (l : list A) (k : Z) :
  (0 <= k)%Z -> Py.slice_to l k = firstn (Z.to_nat k) l.
Proof.
  intros Hk. unfold Py.slice_to.
  transitivity (Py.slice l (Z.of_nat 0) (Z.of_nat 0 + Z.of_nat (Z.to_nat k))).
  - f_equal. lia.
  - exact (slice_nat l 0 (Z.to_nat k)).
Qed.

Lemma descending_firstn {A : Type} (key : A -> R) n l :
  Formula.descending key l -> Formula.descending key (firstn n l).
Proof.
  unfold Formula.descending. revert n.
  induction l as [|x l IH]; intros n Hl; [now rewrite firstn_nil|].
  destruct n; [constructor|]. cbn [firstn].
  inversion Hl as [|? ? Hl' Hx]; subst.
  constructor; [now apply IH|]. now apply Forall_take.
Qed.

(** ** Insertion-ordered dictionaries *)



Lemma dict_keys_set {V : Type} k (v : V) d :
  Py.dict_keys (Py.dict_set k v d)
  = if existsb (String.eqb k) (Py.dict_keys d)
    then Py.dict_keys d else Py.dict_keys d ++ [k].
Proof.
  unfold Py.dict_keys. induction d as [|[k' v'] d IH]; cbn; [reflexivity|].
  rewrite (String.eqb_sym k k').
  destruct (String.eqb k' k) eqn:E; cbn.
  - apply String.eqb_eq in E. now subst.
  - rewrite IH. now destruct (existsb _ _).
Qed.

Lemma dict_get_values {V : Type} k (v : V) d :
  Py.dict_get k d = Some v -> In v (Py.dict_values d).
Proof.
  unfold Py.dict_values. induction d as [|[k' v'] d IH]; cbn; [discriminate|].
  destruct (String.eqb k' k); [intros [= ->]; now left|].
  intros H. right. now apply IH.
Qed.


Lemma existsb_eqb_In k l : existsb (String.eqb k) l = true <-> In k l.
Proof.
  rewrite existsb_exists. split.
  - intros [x [Hx E]]. apply String.eqb_eq in E. now subst.
  - intros H. exists k. now rewrite String.eqb_refl.
Qed.

(** One step of [first_seen]. *)
Lemma see_nodup k acc : NoDup acc -> NoDup (Formula.see acc k).
Proof.
  intros Hnd. unfold Formula.see. destruct (existsb (String.eqb k) acc) eqn:E; [exact Hnd|].
  apply NoDup_app; split; [exact Hnd|split].
  - intros x Hx Hk. apply list_elem_of_In in Hx, Hk.
    destruct Hk as [<-|[]].
    apply existsb_eqb_In in Hx. congruence.
  - repeat constructor. intros H. now apply list_elem_of_In in H.
Qed.

Lemma see_In k acc x : In x (Formula.see acc k) <-> In x acc \/ x = k.
Proof.
  unfold Formula.see. destruct (existsb (String.eqb k) acc) eqn:E.
  - apply existsb_eqb_In in E. split; [auto|]. intros [H| ->]; assumption.
  - rewrite in_app_iff. cbn. intuition congruence.
Qed.

Lemma fold_see_nodup keys acc :
  NoDup acc -> NoDup (fold_left Formula.see keys acc).
Proof.
  revert acc. induction keys as [|k keys IH]; intros acc Hnd; [exact Hnd|].
  cbn [fold_left]. apply IH. now apply see_nodup.
Qed.

Lemma fold_see_In keys acc x :
  In x (fold_left Formula.see keys acc) <-> In x acc \/ In x keys.
Proof.
  revert acc. induction keys as [|k keys IH]; intros acc; cbn [fold_left].
  - cbn. intuition.
  - rewrite IH, see_In. cbn. intuition congruence.
Qed.

Lemma first_seen_nodup keys : NoDup (Formula.first_seen keys).
Proof. apply fold_see_nodup. constructor. Qed.

Lemma first_seen_In keys x : In x (Formula.first_seen keys) <-> In x keys.
Proof. unfold Formula.first_seen. rewrite fold_see_In. cbn. intuition. Qed.


Lemma foldM_pure {A B : Type} (f : B -> A -> result B) (g : B -> A -> B) l b :
  (forall b x, f b x = Ok (g b x)) -> Py.foldM f l b = Ok (fold_left g l b).
Proof.
  intros Hfg. revert b. induction l as [|x l IH]; intros b; [reflexivity|].
  cbn [Py.foldM fold_left]. rewrite Hfg. cbn [Py.bind]. apply IH.
Qed.

(** ** Score fusion *)

Lemma normalize_ok m s :
  Retriever.normalize_tfidf m s = Ok (Formula.normalized m s).
Proof.
  unfold Retriever.normalize_tfidf, Formula.normalized, Py.Rltb.
  destruct (Rlt_dec 0 m) as [Hm|Hm]; [|reflexivity].
  apply div_ok. lra.
Qed.

Lemma add_tfidf_ok m combined t :
  Retriever.add_tfidf m combined t = Ok (Formula.add_tfidf m combined t).
Proof.
  unfold Retriever.add_tfidf, Formula.add_tfidf.
  rewrite normalize_ok. cbn [Py.bind].
  now destruct (Py.dict_get _ combined).
Qed.

Lemma combine_ok sem tf :
  Retriever.combine sem tf = Ok (Formula.combined sem tf).
Proof.
  unfold Retriever.combine, Formula.combined.
  apply foldM_pure. intros b x. apply add_tfidf_ok.
Qed.

(** Fusion never raises: the division by the maximum is guarded. *)
Lemma fuse_ok sem tf top_k sw tw :
  Retriever.fuse sem tf top_k sw tw
  = Ok (Py.slice_to
          (Py.sort_desc Retriever.final_score
             (map (Retriever.finalize sw tw)
                  (Py.dict_values (Formula.combined sem tf))))
          top_k).
Proof. unfold Retriever.fuse. now rewrite combine_ok. Qed.

Lemma semantic_loop_keys sem d :
  Py.dict_keys (fold_left Retriever.add_semantic sem d)
  = fold_left Formula.see (map Formula.semantic_key sem) (Py.dict_keys d).
Proof.
  revert d. induction sem as [|r sem IH]; intros d; [reflexivity|].
  cbn [fold_left map]. rewrite IH. f_equal.
  unfold Retriever.add_semantic. now rewrite dict_keys_set.
Qed.

Lemma tfidf_loop_keys m tf d :
  Py.dict_keys (fold_left (Formula.add_tfidf m) tf d)
  = fold_left Formula.see (map Formula.tfidf_key tf) (Py.dict_keys d).
Proof.
  revert d. induction tf as [|t tf IH]; intros d; [reflexivity|].
  cbn [fold_left map]. rewrite IH. f_equal.
  unfold Formula.add_tfidf. now rewrite dict_keys_set.
Qed.

(** The candidates are the distinct keys, in the order of first
    encounter. *)
Lemma combined_keys sem tf :
  Py.dict_keys (Formula.combined sem tf)
  = Formula.first_seen (map Formula.semantic_key sem
                        ++ map Formula.tfidf_key tf).
Proof.
  unfold Formula.combined, Formula.first_seen.
  now rewrite tfidf_loop_keys, semantic_loop_keys, fold_left_app.
Qed.




Lemma dict_get_In {V : Type} k (v : V) d :
  Py.dict_get k d = Some v -> In (k, v) d.
Proof.
  induction d as [|[k' v'] d IH]; cbn; [discriminate|].
  destruct (String.eqb_spec k' k) as [->|Hne].
  - intros [= ->]. now left.
  - intros H. right. now apply IH.
Qed.

Lemma dict_set_Forall {V : Type} (P : string * V -> Prop) k v d :
  P (k, v) -> Forall P d -> Forall P (Py.dict_set k v d).
Proof.
  intros Hkv. induction 1 as [|[k' v'] d Hx Hd IH]; cbn.
  - now repeat constructor.
  - destruct (String.eqb k' k); constructor; assumption.
Qed.

Lemma semantic_loop_keyed sem d :
  Formula.keyed d -> Formula.keyed (fold_left Retriever.add_semantic sem d).
Proof.
  revert d. induction sem as [|r sem IH]; intros d Hd; [exact Hd|].
  cbn [fold_left]. apply IH. now apply dict_set_Forall.
Qed.

Lemma tfidf_loop_keyed m tf d :
  Formula.keyed d -> Formula.keyed (fold_left (Formula.add_tfidf m) tf d).
Proof.
  revert d. induction tf as [|t tf IH]; intros d Hd; [exact Hd|].
  cbn [fold_left]. apply IH. unfold Formula.add_tfidf.
  apply dict_set_Forall; [|exact Hd].
  destruct (Py.dict_get _ d) as [data|] eqn:Hget; [|reflexivity].
  apply dict_get_In in Hget.
  unfold Formula.keyed in Hd. rewrite Forall_forall in Hd.
  apply list_elem_of_In in Hget. exact (Hd _ Hget).
Qed.

Lemma combined_keyed sem tf : Formula.keyed (Formula.combined sem tf).
Proof. apply tfidf_loop_keyed, semantic_loop_keyed. constructor. Qed.

Lemma keyed_keys d :
  Formula.keyed d ->
  map (fun data => Retriever.doc_id (Retriever.ce_metadata data))
      (Py.dict_values d)
  = Py.dict_keys d.
Proof.
  unfold Py.dict_values, Py.dict_keys.
  induction 1 as [|[k v] d Hkv Hd IH]; [reflexivity|].
  cbn in *. now rewrite Hkv, IH.
Qed.

Lemma fold_Rmax xs x :
  (x <= fold_left Rmax xs x)%R
  /\ Forall (fun y => (y <= fold_left Rmax xs x)%R) xs
  /\ (fold_left Rmax xs x = x \/ In (fold_left Rmax xs x) xs).
Proof.
  revert x. induction xs as [|y xs IH]; intros x; cbn [fold_left].
  - split; [lra|]. split; [constructor|now left].
  - destruct (IH (Rmax x y)) as [H1 [H2 H3]].
    pose proof (Rmax_l x y). pose proof (Rmax_r x y).
    split; [lra|]. split; [constructor; [lra|exact H2]|].
    destruct H3 as [H3|H3]; [|right; now right].
    rewrite H3. unfold Rmax. destruct (Rle_dec x y); [right; now left|now left].
Qed.

Lemma max_tfidf_bounds tf :
  Forall (fun t => (Retriever.tr_tfidf_score t <= Retriever.max_tfidf_of tf)%R) tf.
Proof.
  unfold Retriever.max_tfidf_of. destruct tf as [|t tf]; [constructor|].
  cbn [map Py.max_or].
  destruct (fold_Rmax (map Retriever.tr_tfidf_score tf)
                      (Retriever.tr_tfidf_score t)) as [H1 [H2 _]].
  constructor; [exact H1|].
  rewrite Forall_forall in H2. apply Forall_forall. intros x Hx.
  apply H2. apply list_elem_of_In. apply in_map. now apply list_elem_of_In.
Qed.




(** C5 fails on the code. Chunk 10 of rule 1 and chunk 0 of rule 11 are
    two identities, but the key is the concatenation of the rule id and
    the decimal chunk index, "110" for both: the two results end up in one
    candidate, which has the position of the first and the content and
    the score of the second. *)
Theorem colliding_keys_merged :
  (Retriever.rule_id (Retriever.sr_metadata Example.rule1_chunk10),
   Retriever.chunk_index (Retriever.sr_metadata Example.rule1_chunk10))
  <> (Retriever.rule_id (Retriever.sr_metadata Example.rule11_chunk0),
      Retriever.chunk_index (Retriever.sr_metadata Example.rule11_chunk0))
  /\ Retriever.doc_id (Retriever.sr_metadata Example.rule1_chunk10) = "110"%string
  /\ Retriever.doc_id (Retriever.sr_metadata Example.rule11_chunk0) = "110"%string
  /\ Retriever.fuse [Example.rule1_chunk10; Example.rule11_chunk0] [] 5 0.7 0.3
     = Ok [ {| Retriever.content := "ball at rest moved";
               Retriever.metadata := Example.meta "11" 0;
               Retriever.semantic_score := 0.4;
               Retriever.tfidf_score := 0;
               Retriever.final_score := 0.7 * 0.4 + 0.3 * 0 |} ].
Proof.
  split; [discriminate|]. split; [reflexivity|]. split; [reflexivity|].
  rewrite fuse_ok. reflexivity.
Qed.



(** ** Cosine similarity *)

Lemma np_dot_ok vec1 vec2 :
  length vec1 = length vec2 ->
  Embeddings.np_dot vec1 vec2 = Ok (Formula.dot vec1 vec2).
Proof.
  revert vec2. induction vec1 as [|x vec1 IH]; intros [|y vec2] Hlen;
    try discriminate Hlen; [reflexivity|].
  cbn [Embeddings.np_dot]. rewrite IH by (cbn in Hlen; lia). reflexivity.
Qed.

Lemma np_dot_mismatch vec1 vec2 :
  length vec1 <> length vec2 ->
  Embeddings.np_dot vec1 vec2 = Raise ValueError.
Proof.
  revert vec2. induction vec1 as [|x vec1 IH]; intros [|y vec2] Hlen;
    try reflexivity; [congruence|].
  cbn [Embeddings.np_dot]. rewrite IH by (cbn in Hlen; lia). reflexivity.
Qed.




(** ** Context precision *)




Lemma slice_to_prefix {A : Type} (l : list A) k :
  exists n, Py.slice_to l k = firstn n l.
Proof.
  unfold Py.slice_to, Py.slice. eexists.
  replace (Z.to_nat (Py.slice_index (Z.of_nat (length l)) 0)) with 0%nat;
    [reflexivity|].
  unfold Py.slice_index. cbn. lia.
Qed.





(** ** Hybrid search on a corpus *)

Lemma slice_to_nil {A : Type} k : Py.slice_to (@nil A) k = [].
Proof. unfold Py.slice_to, Py.slice. now rewrite skipn_nil, firstn_nil. Qed.

Lemma slice_to_In {A : Type} (l : list A) k x :
  In x (Py.slice_to l k) -> In x l.
Proof.
  destruct (slice_to_prefix l k) as [n ->].
  intros H. apply list_elem_of_In. apply list_elem_of_In in H.
  exact (subseteq_take n l x H).
Qed.

Lemma fold_see_absorb ks acc :
  (forall k, In k ks -> In k acc) -> fold_left Formula.see ks acc = acc.
Proof.
  induction ks as [|k ks IH]; intros Hin; [reflexivity|].
  cbn [fold_left]. unfold Formula.see at 2.
  rewrite (proj2 (existsb_eqb_In k acc)) by (apply Hin; now left).
  apply IH. intros k' Hk'. apply Hin. now right.
Qed.

Lemma dict_lengths {V : Type} (d : Py.odict V) :
  length (Py.dict_values d) = length (Py.dict_keys d).
Proof. unfold Py.dict_values, Py.dict_keys. now rewrite !length_map. Qed.

(** The number of results is the number of distinct keys, capped by
    [top_k]. *)
Lemma fuse_length sem tf top_k sw tw :
  (0 <= top_k)%Z ->
  exists out,
    Retriever.fuse sem tf top_k sw tw = Ok out
    /\ length out
       = Nat.min (Z.to_nat top_k)
           (length (Formula.first_seen
                      (map Formula.semantic_key sem ++ map Formula.tfidf_key tf))).
Proof.
  intros Hk. eexists. split; [apply fuse_ok|].
  rewrite slice_to_firstn by exact Hk.
  rewrite length_firstn, sort_desc_length, length_map, dict_lengths.
  now rewrite combined_keys.
Qed.

Lemma semantic_search_keys store self query top_k :
  map Formula.semantic_key (Retriever.semantic_search store self query top_k)
  = map (fun p => Formula.row_key (fst p))
        (store (Retriever.collection self) query top_k).
Proof.
  unfold Retriever.semantic_search. rewrite map_map.
  apply map_ext. now intros [row distance].
Qed.

Lemma scored_rows_keys cache query all_docs rows :
  map Formula.tfidf_key (map (Formula.scored_row cache query all_docs) rows)
  = map Formula.row_key rows.
Proof. rewrite map_map. reflexivity. Qed.

(** The lexical results are the scored rows, sorted and cut. *)
Lemma tfidf_search_results self query top_k results self' :
  Retriever.tfidf_search self query top_k = Ok (results, self') ->
  results
  = Py.slice_to
      (Py.sort_desc Retriever.tr_tfidf_score
         (map (Formula.scored_row (Retriever.tfidf_cache self) query
                 (map Retriever.e_document (Retriever.collection self)))
              (Retriever.collection self)))
      top_k.
Proof.
  rewrite tfidf_search_ok.
  destruct (Retriever.collection self) as [|row rows].
  - intros [= <- <-]. cbn [Py.sort_desc map fold_right].
    now rewrite slice_to_nil.
  - set (L := Py.slice_to _ top_k). intros H. now injection H as <- <-.
Qed.

(** The lexical results carry keys of stored rows. *)
Lemma tfidf_search_keys self query top_k results self' :
  Retriever.tfidf_search self query top_k = Ok (results, self') ->
  forall k, In k (map Formula.tfidf_key results) ->
            In k (map Formula.row_key (Retriever.collection self)).
Proof.
  intros H k Hk. rewrite (tfidf_search_results _ _ _ _ _ H) in Hk.
  rewrite <- (scored_rows_keys (Retriever.tfidf_cache self) query
                (map Retriever.e_document (Retriever.collection self))).
  apply in_map_iff in Hk as [t [<- Ht]]. apply in_map.
  apply slice_to_In in Ht.
  exact (Permutation_in _ (sort_desc_perm _ _) Ht).
Qed.

(** With enough room, the lexical search returns every stored row. *)
Lemma tfidf_search_all self query top_k results self' :
  (Z.of_nat (length (Retriever.collection self)) <= top_k)%Z ->
  Retriever.tfidf_search self query top_k = Ok (results, self') ->
  Permutation (map Formula.tfidf_key results)
              (map Formula.row_key (Retriever.collection self)).
Proof.
  intros Hk H. rewrite (tfidf_search_results _ _ _ _ _ H).
  rewrite slice_to_firstn by lia.
  rewrite firstn_all2 by (rewrite sort_desc_length, length_map; lia).
  rewrite <- (scored_rows_keys (Retriever.tfidf_cache self) query
                (map Retriever.e_document (Retriever.collection self))
                (Retriever.collection self)).
  apply Permutation_map, sort_desc_perm.
Qed.

(** Searching an empty collection returns the empty list, also right
    after the collection has been cleared. *)
Lemma hybrid_search_empty store self query top_k sw tw :
  Retriever.collection self = [] ->
  store [] query (top_k * 2)%Z = [] ->
  Retriever.hybrid_search store self query top_k sw tw = Ok ([], self).
Proof.
  intros Hc Hs. unfold Retriever.hybrid_search, Retriever.semantic_search.
  rewrite tfidf_search_ok, Hc, Hs. cbn [Py.bind map].
  rewrite fuse_ok. cbn [Py.bind]. unfold Formula.combined.
  cbn [fold_left Py.dict_values map Py.sort_desc fold_right].
  now rewrite slice_to_nil.
Qed.

Lemma hybrid_search_after_clear store self query top_k sw tw :
  store [] query (top_k * 2)%Z = [] ->
  Retriever.hybrid_search store (Retriever.clear_collection self)
                          query top_k sw tw
  = Ok ([], Retriever.clear_collection self).
Proof. intros Hs. now apply hybrid_search_empty. Qed.

Lemma tfidf_search_total self query top_k :
  exists results self',
    Retriever.tfidf_search self query top_k = Ok (results, self').
Proof.
  rewrite tfidf_search_ok. destruct (Retriever.collection self); eauto.
Qed.

(** The hybrid search never raises, and the number of its results is the
    number of distinct keys among the two result lists, capped by
    [top_k]. *)
Lemma hybrid_search_length store self query top_k sw tw :
  (0 <= top_k)%Z ->
  exists out self' tf,
    Retriever.hybrid_search store self query top_k sw tw = Ok (out, self')
    /\ Retriever.tfidf_search self query (top_k * 2) = Ok (tf, self')
    /\ length out
       = Nat.min (Z.to_nat top_k)
           (length (Formula.first_seen
                      (map Formula.semantic_key
                           (Retriever.semantic_search store self query
                                                      (top_k * 2))
                       ++ map Formula.tfidf_key tf))).
Proof.
  intros Hk.
  destruct (tfidf_search_total self query (top_k * 2)) as (tf & self' & Htf).
  destruct (fuse_length
              (Retriever.semantic_search store self query (top_k * 2))
              tf top_k sw tw Hk) as (out & Hfuse & Hlen).
  exists out, self', tf. split; [|split; [exact Htf|exact Hlen]].
  unfold Retriever.hybrid_search. rewrite Htf. cbn [Py.bind].
  rewrite Hfuse. reflexivity.
Qed.

Lemma first_seen_length_le keys all :
  (forall k, In k keys -> In k all) ->
  length (Formula.first_seen keys) <= length all.
Proof.
  intros Hin. apply submseteq_length, NoDup_submseteq.
  - apply first_seen_nodup.
  - intros x Hx. apply list_elem_of_In. apply Hin.
    apply first_seen_In. now apply list_elem_of_In.
Qed.

Lemma first_seen_length_all keys all :
  NoDup all ->
  (forall k, In k keys <-> In k all) ->
  length (Formula.first_seen keys) = length all.
Proof.
  intros Hnd Hin. apply Permutation_length, NoDup_Permutation.
  - apply first_seen_nodup.
  - exact Hnd.
  - intros x. rewrite !list_elem_of_In, first_seen_In. apply Hin.
Qed.

(** When the vector store answers with rows of the collection, the hybrid
    search returns at most as many results as there are chunks, and, when
    no two chunks share a key and [top_k] exceeds the number of chunks,
    exactly that many. *)
Lemma hybrid_search_count store self query top_k sw tw :
  (0 <= top_k)%Z ->
  (forall p, In p (store (Retriever.collection self) query (top_k * 2)%Z) ->
             In (fst p) (Retriever.collection self)) ->
  exists out self',
    Retriever.hybrid_search store self query top_k sw tw = Ok (out, self')
    /\ length out <= length (Retriever.collection self)
    /\ (NoDup (map Formula.row_key (Retriever.collection self)) ->
        (Z.of_nat (length (Retriever.collection self)) < top_k)%Z ->
        length out = length (Retriever.collection self)).
Proof.
  intros Hk Hstore.
  destruct (hybrid_search_length store self query top_k sw tw Hk)
    as (out & self' & tf & Hh & Htf & Hlen).
  exists out, self'. split; [exact Hh|].
  assert (Hsem : forall k,
            In k (map Formula.semantic_key
                      (Retriever.semantic_search store self query (top_k * 2))) ->
            In k (map Formula.row_key (Retriever.collection self))).
  { intros k. rewrite semantic_search_keys, !in_map_iff.
    intros [p [<- Hp]]. exists (fst p). split; [reflexivity|]. now apply Hstore. }
  pose proof (tfidf_search_keys _ _ _ _ _ Htf) as Hlex.
  split.
  - rewrite Hlen, <- (length_map Formula.row_key (Retriever.collection self)).
    etransitivity; [apply Nat.le_min_r|].
    apply first_seen_length_le. intros k Hkin.
    apply in_app_or in Hkin as [H|H]; auto.
  - intros Hnd Hn.
    rewrite Hlen, <- (length_map Formula.row_key (Retriever.collection self)).
    rewrite (first_seen_length_all _ _ Hnd).
    + rewrite length_map. lia.
    + intros k. split.
      * intros Hkin. apply in_app_or in Hkin as [H|H]; auto.
      * intros Hkin. apply in_or_app. right.
        assert (Hroom : (Z.of_nat (length (Retriever.collection self))
                         <= top_k * 2)%Z) by lia.
        apply (Permutation_in k
                 (Permutation_sym
                    (tfidf_search_all self query (top_k * 2) tf self' Hroom Htf))).
        exact Hkin.
Qed.

(** C8 fails on the code. Rule 1 is ingested as eleven chunks and rule 11
    as one, twelve chunks in all; chunk 10 of rule 1 and chunk 0 of rule
    11 share the key "110", and a search with [top_k = 13] returns eleven
    results. *)
Theorem colliding_keys_lose_result :
  exists corpus out self',
    Retriever.add_documents Refresh.fresh_retriever Example.rules 51 = Ok corpus
    /\ length (Retriever.collection corpus) = 12
    /\ Retriever.hybrid_search Example.store corpus "ball" 13 0.7 0.3
       = Ok (out, self')
    /\ length out = 11.
Proof.
  assert (Hadd : exists corpus,
            Retriever.add_documents Refresh.fresh_retriever Example.rules 51
            = Ok corpus
            /\ map Formula.row_key (Retriever.collection corpus)
               = ["10"; "11"; "12"; "13"; "14"; "15"; "16"; "17"; "18"; "19";
                  "110"; "110"]%string).
  { eexists. split; reflexivity. }
  destruct Hadd as (corpus & Hadd & Hkeys).
  assert (Hn : length (Retriever.collection corpus) = 12).
  { rewrite <- (length_map Formula.row_key), Hkeys. reflexivity. }
  destruct (hybrid_search_length Example.store corpus "ball" 13 0.7 0.3
              ltac:(lia)) as (out & self' & tf & Hh & Htf & Hlen).
  exists corpus, out, self'.
  split; [exact Hadd|]. split; [exact Hn|]. split; [exact Hh|].
  rewrite Hlen. unfold Formula.first_seen. rewrite fold_left_app.
  assert (Hsem : map Formula.semantic_key
                     (Retriever.semantic_search Example.store corpus "ball"
                                                (13 * 2))
                 = map Formula.row_key (Retriever.collection corpus)).
  { rewrite semantic_search_keys. unfold Example.store.
    rewrite slice_to_firstn by lia.
    rewrite firstn_all2 by (rewrite Hn; cbn; lia).
    now rewrite map_map. }
  rewrite Hsem, fold_see_absorb.
  - rewrite Hkeys. reflexivity.
  - intros k Hk. apply fold_see_In. right.
    exact (tfidf_search_keys _ _ _ _ _ Htf k Hk).
Qed.

(** * Further properties of the code *)

(** ** Chunks as windows *)

Lemma chunk_text_nth text (C O : Z) chunks k chunk :
  (0 <= O < C)%Z ->
  Retriever.chunk_text text C O = Ok chunks ->
  nth_error chunks k = Some chunk ->
  Py.split chunk
  = firstn (Z.to_nat C) (skipn (k * Z.to_nat (C - O)) (Py.split text))
  /\ k < Z.to_nat (Claimed.ceil_div (Z.of_nat (length (Py.split text))) (C - O)).
Proof.
  intros H Hc Hk. rewrite chunk_text_windows in Hc by exact H.
  injection Hc as <-. rewrite nth_error_map in Hk.
  destruct (nth_error (seq 0 _) k) as [i|] eqn:Hi; [|discriminate].
  cbn in Hk. injection Hk as <-.
  pose proof (proj1 (nth_error_Some _ _) (eq_ind_r (fun o => o <> None)
                (@Some_ne_None _ i) Hi)) as Hlt.
  rewrite length_seq in Hlt.
  rewrite nth_error_seq in Hi.
  destruct (Nat.ltb_spec k (Z.to_nat (Claimed.ceil_div
              (Z.of_nat (length (Py.split text))) (C - O)))); [|lia].
  cbn in Hi. injection Hi as <-. split; [|exact Hlt].
  apply split_join. apply Forall_take, Forall_drop, split_words.
Qed.

(** X1. With [0 <= O < C], the chunk of index [k] holds exactly the words
    of the text from position [k * (C - O)] on, [C] of them or as many as
    are left: at least one and at most [C]. *)
Theorem chunk_text_window (text : string) (C O : Z) (chunks : list string)
    (k : nat) (chunk : string) :
  (0 <= O < C)%Z ->
  Retriever.chunk_text text C O = Ok chunks ->
  nth_error chunks k = Some chunk ->
  Py.split chunk
  = firstn (Z.to_nat C) (skipn (k * Z.to_nat (C - O)) (Py.split text))
  /\ 1 <= length (Py.split chunk) <= Z.to_nat C.
Proof.
  intros H Hc Hk. destruct (chunk_text_nth _ _ _ _ _ _ H Hc Hk) as [Hw Hlt].
  split; [exact Hw|]. rewrite Hw.
  pose proof (window_nonempty (Py.split text) k C O H Hlt) as Hne.
  split; [lia|]. rewrite length_firstn. lia.
Qed.

Lemma chunk_text_window_witness :
  Py.split "ball as it lies"
  = firstn 4 (skipn (1 * 2) (Py.split "play the ball as it lies"))
  /\ 1 <= length (Py.split "ball as it lies") <= 4.
Proof.
  apply (chunk_text_window "play the ball as it lies" 4 2
           ["play the ball as"; "ball as it lies"; "it lies"]%string 1
           "ball as it lies"); [lia|reflexivity|reflexivity].
Defined.

(** X2. With [0 <= O < C], two consecutive chunks overlap as announced:
    what follows the first [C - O] words of a chunk is the beginning, [O]
    words long at most, of the next chunk. *)
Theorem chunk_text_overlap (text : string) (C O : Z) (chunks : list string)
    (k : nat) (a b : string) :
  (0 <= O < C)%Z ->
  Retriever.chunk_text text C O = Ok chunks ->
  nth_error chunks k = Some a ->
  nth_error chunks (S k) = Some b ->
  skipn (Z.to_nat (C - O)) (Py.split a) = firstn (Z.to_nat O) (Py.split b).
Proof.
  intros H Hc Ha Hb.
  destruct (chunk_text_nth _ _ _ _ _ _ H Hc Ha) as [-> _].
  destruct (chunk_text_nth _ _ _ _ _ _ H Hc Hb) as [-> _].
  rewrite skipn_firstn_comm, skipn_skipn, firstn_firstn.
  replace (S k * Z.to_nat (C - O)) with (Z.to_nat (C - O) + k * Z.to_nat (C - O))
    by lia.
  f_equal. lia.
Qed.

Lemma chunk_text_overlap_witness :
  skipn 2 (Py.split "play the ball as")
  = firstn 2 (Py.split "ball as it lies").
Proof.
  apply (chunk_text_overlap "play the ball as it lies" 4 2
           ["play the ball as"; "ball as it lies"; "it lies"]%string 0
           "play the ball as" "ball as it lies");
    [lia|reflexivity|reflexivity|reflexivity].
Defined.

(** X3. With [0 <= O < C], a text of at least one and at most [C - O]
    words makes a single chunk: its words joined by single spaces. *)
Theorem chunk_text_single (text : string) (C O : Z) :
  (0 <= O < C)%Z ->
  (0 < Z.of_nat (length (Py.split text)) <= C - O)%Z ->
  Retriever.chunk_text text C O = Ok [Py.join " " (Py.split text)].
Proof.
  intros H HL. rewrite chunk_text_windows by exact H.
  replace (Claimed.ceil_div (Z.of_nat (length (Py.split text))) (C - O))
    with 1%Z by (symmetry; apply ceil_div_spec; lia).
  change (Z.to_nat 1) with 1%nat. cbn [seq map].
  rewrite Nat.mul_0_l.
  change (skipn 0 (Py.split text)) with (Py.split text).
  now rewrite (firstn_all2 (n := Z.to_nat C)) by lia.
Qed.

Lemma chunk_text_single_witness :
  Retriever.chunk_text "Rule 1  Play the ball as it lies." 512 50
  = Ok [Py.join " " (Py.split "Rule 1  Play the ball as it lies.")].
Proof.
  apply (chunk_text_single "Rule 1  Play the ball as it lies." 512 50);
    [lia|].
  change (Z.of_nat (length (Py.split "Rule 1  Play the ball as it lies.")))
    with 8%Z.
  lia.
Defined.

(** ** Ingestion *)

Lemma chunk_text_zero_step text C :
  Retriever.chunk_text text C C = Raise ValueError.
Proof. unfold Retriever.chunk_text, Py.range. now rewrite Z.sub_diag. Qed.

Lemma chunk_text_negative_step text C O :
  (C < O)%Z -> Retriever.chunk_text text C O = Ok [].
Proof.
  intros H. unfold Retriever.chunk_text.
  rewrite range_nonpos_step by lia. reflexivity.
Qed.

Lemma nth_error_enumerate {A B : Type} (f : nat * A -> B) (l : list A) s k :
  nth_error (map f (combine (seq s (length l)) l)) k
  = option_map (fun x => f (s + k, x)) (nth_error l k).
Proof.
  revert s k. induction l as [|x l IH]; intros s k; cbn [length seq combine map].
  - now destruct k.
  - destruct k as [|k]; cbn [nth_error option_map].
    + now rewrite Nat.add_0_r.
    + rewrite IH. now rewrite Nat.add_succ_comm.
Qed.

Lemma length_enumerate {A : Type} (l : list A) :
  length (Retriever.enumerate l) = length l.
Proof.
  unfold Retriever.enumerate. rewrite length_combine, length_seq. lia.
Qed.

Lemma document_entries_rows doc C :
  (50 < C)%Z ->
  exists chunks,
    Retriever.chunk_text (Formula.full_text doc) C 50 = Ok chunks
    /\ Z.of_nat (length chunks)
       = Claimed.ceil_div (Z.of_nat (Formula.word_count doc)) (C - 50)
    /\ Retriever.document_entries doc C
       = Ok (map (fun '(idx, chunk) =>
                    {| Retriever.e_id :=
                         (Retriever.doc_rule_id doc ++ "_chunk_"
                          ++ Py.str_of_nat idx)%string;
                       Retriever.e_document := chunk;
                       Retriever.e_metadata :=
                         {| Retriever.rule_id := Some (Retriever.doc_rule_id doc);
                            Retriever.chunk_index := Some idx;
                            Retriever.title := Retriever.doc_title doc;
                            Retriever.section := Retriever.doc_section doc;
                            Retriever.effective_date :=
                              Retriever.doc_effective_date doc;
                            Retriever.total_chunks := length chunks |} |})
                 (Retriever.enumerate chunks)).
Proof.
  intros H. eexists. split; [apply chunk_text_windows; lia|]. split.
  - rewrite length_map, length_seq. unfold Formula.word_count.
    pose proof (ceil_div_bounds
                  (Z.of_nat (length (Py.split (Formula.full_text doc))))
                  (C - 50) ltac:(lia)). nia.
  - unfold Retriever.document_entries.
    change (Retriever.doc_title doc +:+ Retriever.newline +:+ Retriever.newline
            +:+ Retriever.doc_content doc) with (Formula.full_text doc).
    unfold Retriever.default_overlap.
    rewrite chunk_text_windows by lia. reflexivity.
Qed.

(** X4. Every document becomes chunks numbered from [0] without gaps:
    for a chunk size above the overlap of 50, a document of [L] words
    gives [ceil(L / (chunk_size - 50))] rows, and the row of position [k]
    carries chunk index [k], the rule id of the document, the total number
    of its chunks and the id [rule_id ++ "_chunk_" ++ k]. *)
Theorem document_entries_numbered (doc : Retriever.document) (C : Z) :
  (50 < C)%Z ->
  exists rows,
    Retriever.document_entries doc C = Ok rows
    /\ Z.of_nat (length rows)
       = Claimed.ceil_div (Z.of_nat (Formula.word_count doc)) (C - 50)
    /\ forall k row,
         nth_error rows k = Some row ->
         Retriever.chunk_index (Retriever.e_metadata row) = Some k
         /\ Retriever.total_chunks (Retriever.e_metadata row) = length rows
         /\ Retriever.rule_id (Retriever.e_metadata row)
            = Some (Retriever.doc_rule_id doc)
         /\ Retriever.e_id row
            = (Retriever.doc_rule_id doc ++ "_chunk_" ++ Py.str_of_nat k)%string.
Proof.
  intros H. destruct (document_entries_rows doc C H) as (chunks & _ & Hn & He).
  eexists. split; [exact He|]. split.
  - now rewrite length_map, length_enumerate.
  - intros k row Hk. rewrite length_map, length_enumerate.
    unfold Retriever.enumerate in Hk. rewrite nth_error_enumerate in Hk.
    destruct (nth_error chunks k); [|discriminate].
    cbn in Hk. injection Hk as <-. cbn. auto.
Qed.

Lemma document_entries_numbered_witness :
  exists rows,
    Retriever.document_entries (Refresh.rule "1" "dog") 512 = Ok rows
    /\ Z.of_nat (length rows)
       = Claimed.ceil_div
           (Z.of_nat (Formula.word_count (Refresh.rule "1" "dog"))) (512 - 50)
    /\ forall k row,
         nth_error rows k = Some row ->
         Retriever.chunk_index (Retriever.e_metadata row) = Some k
         /\ Retriever.total_chunks (Retriever.e_metadata row) = length rows
         /\ Retriever.rule_id (Retriever.e_metadata row)
            = Some (Retriever.doc_rule_id (Refresh.rule "1" "dog"))
         /\ Retriever.e_id row
            = (Retriever.doc_rule_id (Refresh.rule "1" "dog") ++ "_chunk_"
               ++ Py.str_of_nat k)%string.
Proof. apply (document_entries_numbered (Refresh.rule "1" "dog") 512). lia. Defined.

Lemma document_entries_small doc C :
  (C < 50)%Z -> Retriever.document_entries doc C = Ok [].
Proof.
  intros H. unfold Retriever.document_entries, Retriever.default_overlap.
  rewrite chunk_text_negative_step by exact H. reflexivity.
Qed.

Lemma fold_entries_small docs C acc :
  (C < 50)%Z ->
  Py.foldM (fun acc doc =>
              Py.bind (Retriever.document_entries doc C)
                      (fun es => Ok (acc ++ es)))
           docs acc
  = Ok acc.
Proof.
  intros H. revert acc. induction docs as [|doc docs IH]; intros acc;
    [reflexivity|].
  cbn [Py.foldM]. rewrite document_entries_small by exact H. cbn [Py.bind].
  rewrite app_nil_r. apply IH.
Qed.

(** X5. The chunk size of [add_documents] meets the fixed overlap of 50
    unguarded: with a chunk size of exactly 50 the ingestion of any
    document raises [ValueError], and with a smaller one it succeeds
    without storing anything, the retriever is returned as it was. *)
Theorem add_documents_small_chunk_size (self : Retriever.retriever)
    (documents : list Retriever.document) (chunk_size : Z) :
  (chunk_size <= 50)%Z ->
  documents <> [] ->
  Retriever.add_documents self documents chunk_size
  = if (chunk_size =? 50)%Z then Raise ValueError else Ok self.
Proof.
  intros H Hd. unfold Retriever.add_documents.
  destruct (chunk_size =? 50)%Z eqn:E.
  - apply Z.eqb_eq in E. subst chunk_size.
    destruct documents as [|doc docs]; [congruence|].
    cbn [Py.foldM]. unfold Retriever.document_entries at 1.
    unfold Retriever.default_overlap. now rewrite chunk_text_zero_step.
  - apply Z.eqb_neq in E.
    rewrite (fold_entries_small documents chunk_size []) by lia. reflexivity.
Qed.

Lemma add_documents_small_chunk_size_witness :
  Retriever.add_documents Refresh.ingested Refresh.new_rules 50
  = Raise ValueError
  /\ Retriever.add_documents Refresh.ingested Refresh.new_rules 30
     = Ok Refresh.ingested.
Proof.
  split.
  - apply (add_documents_small_chunk_size Refresh.ingested Refresh.new_rules 50);
      [lia|discriminate].
  - apply (add_documents_small_chunk_size Refresh.ingested Refresh.new_rules 30);
      [lia|discriminate].
Defined.





(** ** Tokens *)

Lemma split_all_chars (p : ascii -> bool) s :
  Formula.all_chars (fun c => Py.is_space c || p c) s = true ->
  Forall (fun t => Formula.all_chars p t = true) (Py.split s).
Proof.
  induction s as [|c s IH]; cbn [Formula.all_chars Py.split]; [constructor|].
  intros Hs. apply andb_prop in Hs as [Hc Hs]. specialize (IH Hs).
  destruct (Py.is_space c) eqn:Ec; [exact IH|]. cbn [orb] in Hc.
  assert (Hone : Formula.all_chars p (String c EmptyString) = true)
    by (cbn; now rewrite Hc).
  destruct (Py.starts_with_space s); [now constructor|].
  destruct (Py.split s) as [|w ws]; [constructor; [exact Hone|constructor]|].
  inversion IH as [|? ? Hw Hws]; subst.
  constructor; [|exact Hws]. cbn. now rewrite Hc, Hw.
Qed.

Lemma tokenize_map_chars text :
  Formula.all_chars (fun c => Py.is_space c || Py.is_word c)
    (Py.map_string
       (fun c => if Py.is_word c || Py.is_space c then c else " "%char) text)
  = true.
Proof.
  induction text as [|c text IH]; [reflexivity|].
  cbn [Py.map_string Formula.all_chars]. rewrite IH, andb_true_r.
  destruct (Py.is_word c) eqn:Ew; cbn [orb].
  - now rewrite Ew, orb_true_r.
  - destruct (Py.is_space c) eqn:Es; [now rewrite Es|reflexivity].
Qed.

(** X8. Every token is non-empty and made of word characters only:
    letters, digits and the underscore; punctuation and whitespace never
    reach a token. *)
Theorem tokenize_tokens (text : string) :
  Forall (fun t => Py.truthy t = true
                   /\ Formula.all_chars Py.is_word t = true)
         (Retriever._tokenize text).
Proof.
  unfold Retriever._tokenize.
  pose proof (split_words
                (Py.map_string
                   (fun c => if Py.is_word c || Py.is_space c then c
                             else " "%char) text)) as Hw.
  pose proof (split_all_chars Py.is_word _ (tokenize_map_chars text)) as Hc.
  rewrite Forall_forall in Hw, Hc. apply Forall_forall. intros t Ht.
  split; [exact (proj1 (Hw t Ht))|exact (Hc t Ht)].
Qed.

Lemma prefix_cons c t s :
  String.prefix (String c t) (String c s) = String.prefix t s.
Proof. cbn. destruct (ascii_dec c c); [reflexivity|congruence]. Qed.

Lemma split_head_prefix s :
  Py.starts_with_space s = false ->
  exists w ws, Py.split s = w :: ws /\ String.prefix w s = true.
Proof.
  induction s as [|c s IH]; [discriminate|]. cbn [Py.starts_with_space Py.split].
  intros Hc. rewrite Hc.
  destruct (Py.starts_with_space s) eqn:Es.
  - eexists _, _. split; [reflexivity|]. rewrite prefix_cons.
    now destruct s.
  - destruct (IH eq_refl) as (w & ws & -> & Hp).
    eexists _, _. split; [reflexivity|]. now rewrite prefix_cons.
Qed.

Lemma contains_cons t c s :
  Py.contains t s = true -> Py.contains t (String c s) = true.
Proof. intros H. cbn [Py.contains]. rewrite H. apply orb_true_r. Qed.

Lemma contains_prefix t s :
  String.prefix t s = true -> Py.contains t s = true.
Proof. intros H. destruct s; cbn [Py.contains]; now rewrite H. Qed.

(** A word that [split] returns occurs in the string. *)
Lemma split_contains t s : In t (Py.split s) -> Py.contains t s = true.
Proof.
  induction s as [|c s IH]; [intros []|]. cbn [Py.split].
  destruct (Py.is_space c) eqn:Ec.
  - intros H. apply contains_cons. now apply IH.
  - destruct (Py.starts_with_space s) eqn:Es.
    + intros [<-|H]; [|apply contains_cons; now apply IH].
      apply contains_prefix. rewrite prefix_cons. now destruct s.
    + destruct (split_head_prefix s Es) as (w & ws & Hsplit & Hp).
      rewrite Hsplit in *. intros [<-|H].
      * apply contains_prefix. now rewrite prefix_cons.
      * apply contains_cons. apply IH. now right.
Qed.

Lemma prefix_unmap t s :
  Formula.all_chars Py.is_word t = true ->
  String.prefix t
    (Py.map_string
       (fun c => if Py.is_word c || Py.is_space c then c else " "%char) s)
  = true ->
  String.prefix t s = true.
Proof.
  revert s. induction t as [|a t IH]; intros s Ht Hp; [now destruct s|].
  destruct s as [|b s]; [discriminate|].
  cbn [Formula.all_chars] in Ht. apply andb_prop in Ht as [Ha Ht].
  cbn [Py.map_string String.prefix] in Hp |- *.
  destruct (ascii_dec a _) as [E|E] in Hp; [|discriminate].
  destruct (Py.is_word b || Py.is_space b) eqn:Eb.
  - subst a. destruct (ascii_dec b b); [|congruence]. now apply IH.
  - subst a. discriminate Ha.
Qed.

Lemma contains_unmap t s :
  Formula.all_chars Py.is_word t = true ->
  Py.contains t
    (Py.map_string
       (fun c => if Py.is_word c || Py.is_space c then c else " "%char) s)
  = true ->
  Py.contains t s = true.
Proof.
  intros Ht. induction s as [|c s IH]; cbn [Py.map_string Py.contains].
  - rewrite orb_false_r. intros Hp.
    now rewrite (prefix_unmap t EmptyString Ht Hp).
  - intros H. apply orb_prop in H as [H|H].
    + rewrite (prefix_unmap t (String c s) Ht H). reflexivity.
    + rewrite (IH H). apply orb_true_r.
Qed.

Lemma token_contained t text :
  In t (Retriever._tokenize text) -> Py.contains t text = true.
Proof.
  intros Ht.
  pose proof (tokenize_map_chars text) as Hc.
  apply (split_all_chars Py.is_word) in Hc. rewrite Forall_forall in Hc.
  apply contains_unmap; [apply Hc; now apply list_elem_of_In|].
  now apply split_contains.
Qed.

(** X9. A token of a stored document is found by the substring test of
    the document count: for a term among the tokens of some document of
    the corpus the count is at least one, so its inverse document
    frequency is the logarithm and never the fallback [0]. *)
Theorem token_is_counted (term doc : string) (all_docs : list string) :
  In doc all_docs ->
  In term (Retriever._tokenize (Py.lower doc)) ->
  1 <= Retriever.doc_count term all_docs
  /\ Retriever.fresh_idf term all_docs
     = Ok (ln (INR (length all_docs + 1)
               / INR (Retriever.doc_count term all_docs + 1))).
Proof.
  intros Hdoc Hterm.
  assert (Hn : 1 <= Retriever.doc_count term all_docs).
  { unfold Retriever.doc_count.
    assert (Hin : In doc (List.filter
                            (fun d => Py.contains term (Py.lower d)) all_docs)).
    { apply filter_In. split; [exact Hdoc|]. now apply token_contained. }
    destruct (List.filter _ all_docs); [destruct Hin|cbn; lia]. }
  split; [exact Hn|]. rewrite fresh_idf_ok. unfold Formula.idf.
  destruct (Nat.ltb_spec 0 (Retriever.doc_count term all_docs)); [reflexivity|lia].
Qed.

Lemma token_is_counted_witness :
  1 <= Retriever.doc_count "ball" ["Play the ball."; "As it lies"]%string
  /\ Retriever.fresh_idf "ball" ["Play the ball."; "As it lies"]%string
     = Ok (ln (INR (length ["Play the ball."; "As it lies"]%string + 1)
               / INR (Retriever.doc_count "ball"
                        ["Play the ball."; "As it lies"]%string + 1))).
Proof.
  apply (token_is_counted "ball" "Play the ball."
           ["Play the ball."; "As it lies"]%string).
  - now left.
  - vm_compute. auto.
Defined.

(** ** Lexical scores *)

Lemma div_nonneg a b : (0 <= a)%R -> (0 < b)%R -> (0 <= a / b)%R.
Proof.
  intros Ha Hb. unfold Rdiv. apply Rmult_le_pos; [exact Ha|].
  left. now apply Rinv_0_lt_compat.
Qed.

Lemma tf_nonneg term doc_tokens : (0 <= Formula.tf term doc_tokens)%R.
Proof.
  unfold Formula.tf. destruct (Nat.ltb_spec 0 (length doc_tokens)); [|lra].
  apply div_nonneg; [apply pos_INR|now apply lt_0_INR].
Qed.

Lemma doc_count_le term all_docs :
  Retriever.doc_count term all_docs <= length all_docs.
Proof.
  unfold Retriever.doc_count. induction all_docs as [|d l IH]; [reflexivity|].
  cbn [List.filter]. destruct (Py.contains _ _); cbn [length]; lia.
Qed.

Lemma idf_nonneg term all_docs : (0 <= Formula.idf term all_docs)%R.
Proof.
  unfold Formula.idf.
  destruct (Nat.ltb_spec 0 (Retriever.doc_count term all_docs)); [|lra].
  pose proof (doc_count_le term all_docs) as Hle.
  rewrite <- ln_1.
  assert (Hpos : (0 < INR (Retriever.doc_count term all_docs + 1))%R)
    by (apply lt_0_INR; lia).
  assert (Hone : (1 <= INR (length all_docs + 1)
                       / INR (Retriever.doc_count term all_docs + 1))%R).
  { apply (Rmult_le_reg_r (INR (Retriever.doc_count term all_docs + 1)));
      [exact Hpos|].
    unfold Rdiv. rewrite Rmult_assoc, Rinv_l by lra.
    rewrite Rmult_1_l, Rmult_1_r. apply le_INR. lia. }
  destruct Hone as [Hlt|<-]; [|lra]. left. apply ln_increasing; lra.
Qed.

Lemma idf_everywhere term all_docs :
  Retriever.doc_count term all_docs = length all_docs ->
  Formula.idf term all_docs = 0%R.
Proof.
  intros E. unfold Formula.idf. rewrite E.
  destruct (0 <? length all_docs); [|reflexivity].
  unfold Rdiv. rewrite Rinv_r by (apply not_0_INR; lia). apply ln_1.
Qed.

Lemma Rsum_nonneg l : Forall (fun x => (0 <= x)%R) l -> (0 <= Formula.Rsum l)%R.
Proof.
  unfold Formula.Rsum. induction 1 as [|x l Hx _ IH]; cbn [fold_right]; lra.
Qed.

Lemma Rsum_zero l : Forall (fun x => x = 0%R) l -> Formula.Rsum l = 0%R.
Proof.
  unfold Formula.Rsum. induction 1 as [|x l Hx _ IH]; cbn [fold_right]; lra.
Qed.

Lemma cache_nonneg_after all_docs cache term :
  Formula.cache_nonneg cache ->
  Formula.cache_nonneg (Formula.cache_after all_docs cache term).
Proof.
  intros Hc t v. unfold Formula.cache_after.
  destruct (cache !! term) eqn:E; [apply Hc|].
  destruct (decide (term = t)) as [->|Hne].
  - rewrite lookup_insert_eq. intros [= <-]. apply idf_nonneg.
  - rewrite lookup_insert_ne by exact Hne. apply Hc.
Qed.

Lemma cache_nonneg_fill all_docs terms cache :
  Formula.cache_nonneg cache ->
  Formula.cache_nonneg (Formula.cache_fill all_docs terms cache).
Proof.
  revert cache. induction terms as [|term terms IH]; intros cache Hc; [exact Hc|].
  apply (IH (Formula.cache_after all_docs cache term)).
  now apply cache_nonneg_after.
Qed.

Lemma score_nonneg cache query_tokens doc_tokens all_docs :
  Formula.cache_nonneg cache ->
  (0 <= Formula.score cache query_tokens doc_tokens all_docs)%R.
Proof.
  intros Hc. unfold Formula.score. apply Rsum_nonneg.
  apply Forall_forall. intros x Hx. apply list_elem_of_In in Hx.
  apply in_map_iff in Hx as [t [<- _]].
  apply Rmult_le_pos; [apply tf_nonneg|].
  unfold Formula.idf_used. destruct (cache !! t) eqn:E; [exact (Hc _ _ E)|].
  apply idf_nonneg.
Qed.

(** X10. Lexical scores are never negative: starting from a cache without
    negative values, as the empty cache of a new retriever is, the score
    of a chunk is at least [0] and the cache the call leaves has no
    negative value either. *)
Theorem tfidf_score_nonneg (cache : gmap string R)
    (query_tokens doc_tokens all_docs : list string) :
  Formula.cache_nonneg cache ->
  exists score cache',
    Retriever._calculate_tfidf_score cache query_tokens doc_tokens all_docs
    = Ok (score, cache')
    /\ (0 <= score)%R
    /\ Formula.cache_nonneg cache'.
Proof.
  intros Hc. eexists _, _. split; [apply calculate_tfidf_score_ok|].
  split; [now apply score_nonneg|now apply cache_nonneg_fill].
Qed.

Lemma tfidf_score_nonneg_witness :
  exists score cache',
    Retriever._calculate_tfidf_score ∅ ["ball"; "lies"]%string
      ["play"; "the"; "ball"]%string ["Play the ball"; "as it lies"]%string
    = Ok (score, cache')
    /\ (0 <= score)%R
    /\ Formula.cache_nonneg cache'.
Proof.
  apply (tfidf_score_nonneg ∅ ["ball"; "lies"]%string
           ["play"; "the"; "ball"]%string
           ["Play the ball"; "as it lies"]%string).
  intros t v H. now rewrite lookup_empty in H.
Defined.

Lemma tf_absent term doc_tokens :
  ~ In term doc_tokens -> Formula.tf term doc_tokens = 0%R.
Proof.
  intros H. unfold Formula.tf.
  rewrite (proj1 (count_occ_not_In string_dec doc_tokens term) H).
  destruct (0 <? length doc_tokens); [|reflexivity].
  cbn [INR]. unfold Rdiv. apply Rmult_0_l.
Qed.

(** X11. A chunk that has none of the query's tokens scores exactly [0],
    whatever the cache holds; this covers the chunk without tokens, for
    which the division by the number of tokens is skipped, and the query
    without tokens. *)
Theorem tfidf_score_disjoint (cache : gmap string R)
    (query_tokens doc_tokens all_docs : list string) :
  (forall term, In term query_tokens -> ~ In term doc_tokens) ->
  exists cache',
    Retriever._calculate_tfidf_score cache query_tokens doc_tokens all_docs
    = Ok (0%R, cache').
Proof.
  intros Hd. eexists. rewrite calculate_tfidf_score_ok. f_equal. f_equal.
  unfold Formula.score. apply Rsum_zero.
  apply Forall_forall. intros x Hx. apply list_elem_of_In in Hx.
  apply in_map_iff in Hx as [t [<- Ht]].
  rewrite (tf_absent t doc_tokens (Hd t Ht)). apply Rmult_0_l.
Qed.

Lemma tfidf_score_disjoint_witness :
  exists cache',
    Retriever._calculate_tfidf_score ∅ ["ball"; "lies"]%string []
      ["..."; "as it lies"]%string
    = Ok (0%R, cache').
Proof.
  apply (tfidf_score_disjoint ∅ ["ball"; "lies"]%string []
           ["..."; "as it lies"]%string).
  intros term _ [].
Defined.

Lemma idf_single term doc : Formula.idf term [doc] = 0%R.
Proof.
  pose proof (doc_count_le term [doc]) as Hle. cbn [length] in Hle.
  destruct (Retriever.doc_count term [doc]) as [|n] eqn:E.
  - unfold Formula.idf. now rewrite E.
  - apply idf_everywhere. rewrite E. cbn [length]. lia.
Qed.


Lemma tfidf_search_nonempty self query top_k :
  Retriever.tfidf_search self query top_k
  = Ok (Py.slice_to
          (Py.sort_desc Retriever.tr_tfidf_score
             (map (Formula.scored_row (Retriever.tfidf_cache self) query
                     (map Retriever.e_document (Retriever.collection self)))
                  (Retriever.collection self)))
          top_k,
        match Retriever.collection self with
        | [] => self
        | _ :: _ =>
            {| Retriever.collection := Retriever.collection self;
               Retriever.tfidf_cache :=
                 Formula.cache_fill
                   (map Retriever.e_document (Retriever.collection self))
                   (Retriever._tokenize (Py.lower query))
                   (Retriever.tfidf_cache self) |}
        end).
Proof.
  rewrite tfidf_search_ok. destruct (Retriever.collection self); [|reflexivity].
  cbn [map Py.sort_desc fold_right]. now rewrite slice_to_nil.
Qed.

(** X12. In a corpus of a single chunk every lexical score is [0] (with a
    cache that holds values of this corpus, such as the empty one): a term
    either occurs in the chunk, and its inverse document frequency is
    [ln(2/2)], or it does not, and the frequency is [0]. *)
Theorem single_chunk_scores_zero (self : Retriever.retriever)
    (row : Retriever.entry) (query : string) (top_k : Z) :
  Retriever.collection self = [row] ->
  Formula.cache_of [Retriever.e_document row] (Retriever.tfidf_cache self) ->
  exists results self',
    Retriever.tfidf_search self query top_k = Ok (results, self')
    /\ Forall (fun r => Retriever.tr_tfidf_score r = 0%R) results.
Proof.
  intros Hrow Hc. eexists _, _. split; [apply tfidf_search_nonempty|].
  rewrite Hrow. cbn [map]. apply Forall_forall. intros r Hr.
  apply list_elem_of_In, slice_to_In in Hr.
  apply (Permutation_in _ (sort_desc_perm _ _)) in Hr.
  destruct Hr as [<-|[]]. cbn [Formula.scored_row Retriever.tr_tfidf_score].
  unfold Formula.score. apply Rsum_zero.
  apply Forall_forall. intros x Hx. apply list_elem_of_In in Hx.
  apply in_map_iff in Hx as [t [<- _]].
  rewrite (cache_of_idf_used _ _ _ Hc), idf_single. apply Rmult_0_r.
Qed.

Lemma single_chunk_scores_zero_witness :
  exists results self',
    Retriever.tfidf_search
      {| Retriever.collection := [Refresh.row "1" "dog"];
         Retriever.tfidf_cache := ∅ |} "dog" 5
    = Ok (results, self')
    /\ Forall (fun r => Retriever.tr_tfidf_score r = 0%R) results.
Proof.
  apply (single_chunk_scores_zero
           {| Retriever.collection := [Refresh.row "1" "dog"];
              Retriever.tfidf_cache := ∅ |} (Refresh.row "1" "dog") "dog" 5).
  - reflexivity.
  - exact (cache_of_empty [Retriever.e_document (Refresh.row "1" "dog")]).
Defined.

(** X13. The lexical search never raises. For [top_k >= 0] it returns
    [min(top_k, n)] results for a collection of [n] rows, sorted by
    descending score, each with the text and the metadata of a stored
    row, and it leaves the collection as it was. *)
Theorem tfidf_search_shape (self : Retriever.retriever) (query : string)
    (top_k : Z) :
  (0 <= top_k)%Z ->
  exists results self',
    Retriever.tfidf_search self query top_k = Ok (results, self')
    /\ length results
       = Nat.min (Z.to_nat top_k) (length (Retriever.collection self))
    /\ Formula.descending Retriever.tr_tfidf_score results
    /\ Retriever.collection self' = Retriever.collection self
    /\ Forall (fun r => exists row,
                 In row (Retriever.collection self)
                 /\ Retriever.tr_content r = Retriever.e_document row
                 /\ Retriever.tr_metadata r = Retriever.e_metadata row)
              results.
Proof.
  intros Hk. eexists _, _. split; [apply tfidf_search_nonempty|].
  rewrite slice_to_firstn by exact Hk. split; [|split; [|split]].
  - now rewrite length_firstn, sort_desc_length, length_map.
  - apply descending_firstn, sort_desc_sorted.
  - destruct (Retriever.collection self) eqn:E; [exact E|reflexivity].
  - apply Forall_forall. intros r Hr. apply list_elem_of_In in Hr.
    apply list_elem_of_In, (subseteq_take _ _ r), list_elem_of_In in Hr.
    apply (Permutation_in _ (sort_desc_perm _ _)) in Hr.
    apply in_map_iff in Hr as [row [<- Hrow]]. exists row. auto.
Qed.

Lemma tfidf_search_shape_witness :
  exists results self',
    Retriever.tfidf_search Refresh.ingested "dog" 1 = Ok (results, self')
    /\ length results
       = Nat.min (Z.to_nat 1) (length (Retriever.collection Refresh.ingested))
    /\ Formula.descending Retriever.tr_tfidf_score results
    /\ Retriever.collection self' = Retriever.collection Refresh.ingested
    /\ Forall (fun r => exists row,
                 In row (Retriever.collection Refresh.ingested)
                 /\ Retriever.tr_content r = Retriever.e_document row
                 /\ Retriever.tr_metadata r = Retriever.e_metadata row)
              results.
Proof. apply (tfidf_search_shape Refresh.ingested "dog" 1). lia. Defined.

(** X14. A search can be repeated: on the retriever a lexical search
    leaves behind, the same query returns the same results and changes
    nothing any more. *)
Theorem tfidf_search_repeatable (self : Retriever.retriever) (query : string)
    (top_k : Z) :
  exists results self',
    Retriever.tfidf_search self query top_k = Ok (results, self')
    /\ Retriever.tfidf_search self' query top_k = Ok (results, self').
Proof.
  eexists _, _. split; [apply tfidf_search_nonempty|].
  rewrite tfidf_search_nonempty.
  destruct (Retriever.collection self) as [|row rows] eqn:E.
  - rewrite E. reflexivity.
  - cbn [Retriever.collection Retriever.tfidf_cache].
    rewrite cache_fill_idem. f_equal. f_equal. f_equal. f_equal.
    apply map_ext. intros r. apply scored_row_fill.
Qed.



(** ** Fused scores *)

Lemma normalized_bounds m s :
  (0 <= s <= m)%R -> (0 <= Formula.normalized m s <= 1)%R.
Proof.
  intros Hs. unfold Formula.normalized, Py.Rltb.
  destruct (Rlt_dec 0 m) as [Hm|Hm]; [|lra].
  split; [apply div_nonneg; lra|].
  apply (Rmult_le_reg_r m); [exact Hm|].
  unfold Rdiv. rewrite Rmult_assoc, Rinv_l by lra. lra.
Qed.

Lemma semantic_loop_bounds sem d :
  Forall (fun r => (0 <= Retriever.sr_similarity r <= 1)%R) sem ->
  Forall (fun kv => Formula.score_bounds (snd kv)) d ->
  Forall (fun kv => Formula.score_bounds (snd kv))
         (fold_left Retriever.add_semantic sem d).
Proof.
  intros Hsem. revert d. induction Hsem as [|r sem Hr _ IH]; intros d Hd;
    [exact Hd|].
  cbn [fold_left]. apply IH. unfold Retriever.add_semantic.
  apply dict_set_Forall; [|exact Hd].
  split; cbn; [exact Hr|lra].
Qed.

Lemma tfidf_loop_bounds m tf d :
  Forall (fun t => (0 <= Retriever.tr_tfidf_score t <= m)%R) tf ->
  Forall (fun kv => Formula.score_bounds (snd kv)) d ->
  Forall (fun kv => Formula.score_bounds (snd kv))
         (fold_left (Formula.add_tfidf m) tf d).
Proof.
  intros Htf. revert d. induction Htf as [|t tf Ht _ IH]; intros d Hd;
    [exact Hd|].
  cbn [fold_left]. apply IH. unfold Formula.add_tfidf.
  apply dict_set_Forall; [|exact Hd].
  pose proof (normalized_bounds m _ Ht) as Hn.
  destruct (Py.dict_get _ d) as [data|] eqn:Hget.
  - apply dict_get_In, list_elem_of_In in Hget.
    rewrite Forall_forall in Hd. destruct (Hd _ Hget) as [Hs _].
    split; cbn; [exact Hs|exact Hn].
  - split; cbn; [lra|exact Hn].
Qed.

(** X16. When the lexical scores are not negative and the similarities
    lie between [0] and [1], every result has a normalized lexical score
    and a semantic score between [0] and [1], and with non-negative
    weights a final score between [0] and the sum of the weights. *)
Theorem fuse_score_bounds (semantic_results : list Retriever.semantic_result)
    (tfidf_results : list Retriever.tfidf_result) (top_k : Z)
    (semantic_weight tfidf_weight : R) :
  Forall (fun r => (0 <= Retriever.sr_similarity r <= 1)%R) semantic_results ->
  Forall (fun t => (0 <= Retriever.tr_tfidf_score t)%R) tfidf_results ->
  (0 <= semantic_weight)%R ->
  (0 <= tfidf_weight)%R ->
  exists out,
    Retriever.fuse semantic_results tfidf_results top_k
                   semantic_weight tfidf_weight = Ok out
    /\ Forall (fun c =>
                 (0 <= Retriever.semantic_score c <= 1)%R
                 /\ (0 <= Retriever.tfidf_score c <= 1)%R
                 /\ (0 <= Retriever.final_score c
                     <= semantic_weight + tfidf_weight)%R)
              out.
Proof.
  intros Hsem Htf Hsw Htw. eexists. split; [apply fuse_ok|].
  assert (HD : Forall (fun kv => Formula.score_bounds (snd kv))
                      (Formula.combined semantic_results tfidf_results)).
  { unfold Formula.combined. apply tfidf_loop_bounds.
    - pose proof (max_tfidf_bounds tfidf_results) as Hmax.
      rewrite Forall_forall in Hmax, Htf. apply Forall_forall. intros t Ht.
      split; [now apply Htf|now apply Hmax].
    - apply semantic_loop_bounds; [exact Hsem|constructor]. }
  apply Forall_forall. intros c Hc.
  apply list_elem_of_In, slice_to_In in Hc.
  apply (Permutation_in _ (sort_desc_perm _ _)) in Hc.
  apply in_map_iff in Hc as [data [<- Hdata]].
  unfold Py.dict_values in Hdata. apply in_map_iff in Hdata as [kv [<- Hkv]].
  rewrite Forall_forall in HD. apply list_elem_of_In in Hkv.
  destruct (HD _ Hkv) as [Hs Ht].
  cbn [Retriever.finalize Retriever.semantic_score Retriever.tfidf_score
       Retriever.final_score].
  split; [exact Hs|]. split; [exact Ht|]. nra.
Qed.

Lemma fuse_score_bounds_witness :
  exists out,
    Retriever.fuse [Example.semantic "the game" "1" 0 0.9]
                   [Example.lexical "the game" "1" 0 2;
                    Example.lexical "the ball" "2" 0 1]
                   5 0.7 0.3 = Ok out
    /\ Forall (fun c =>
                 (0 <= Retriever.semantic_score c <= 1)%R
                 /\ (0 <= Retriever.tfidf_score c <= 1)%R
                 /\ (0 <= Retriever.final_score c <= 0.7 + 0.3)%R)
              out.
Proof.
  apply (fuse_score_bounds [Example.semantic "the game" "1" 0 0.9]
           [Example.lexical "the game" "1" 0 2;
            Example.lexical "the ball" "2" 0 1] 5 0.7 0.3).
  - repeat constructor; cbn; lra.
  - repeat constructor; cbn; lra.
  - lra.
  - lra.
Defined.

(** X17. No key comes twice in the result of a fusion, and the result is
    not longer than the two lists together. *)
Theorem fuse_distinct_keys (semantic_results : list Retriever.semantic_result)
    (tfidf_results : list Retriever.tfidf_result) (top_k : Z)
    (semantic_weight tfidf_weight : R) :
  exists out,
    Retriever.fuse semantic_results tfidf_results top_k
                   semantic_weight tfidf_weight = Ok out
    /\ NoDup (map Formula.result_key out)
    /\ length out <= length semantic_results + length tfidf_results.
Proof.
  eexists. split; [apply fuse_ok|].
  set (D := Formula.combined semantic_results tfidf_results).
  set (sorted := Py.sort_desc Retriever.final_score
                   (map (Retriever.finalize semantic_weight tfidf_weight)
                        (Py.dict_values D))).
  assert (Hkeys : map Formula.result_key sorted ≡ₚ Py.dict_keys D).
  { unfold sorted. rewrite (sort_desc_perm Retriever.final_score).
    rewrite map_map. unfold Formula.result_key.
    cbn [Retriever.finalize Retriever.metadata].
    now rewrite (keyed_keys D (combined_keyed _ _)). }
  assert (Hnd : NoDup (map Formula.result_key sorted)).
  { rewrite Hkeys. unfold D. rewrite combined_keys. apply first_seen_nodup. }
  destruct (slice_to_prefix sorted top_k) as [n ->]. split.
  - rewrite <- firstn_map. eapply sublist_NoDup; [exact Hnd|apply sublist_take].
  - rewrite length_firstn.
    etransitivity; [apply Nat.le_min_r|].
    rewrite <- (length_map Formula.result_key), (Permutation_length Hkeys).
    unfold D. rewrite combined_keys.
    etransitivity; [apply (first_seen_length_le _ _ (fun k H => H))|].
    now rewrite length_app, !length_map.
Qed.

(** ** The hybrid search as a whole *)



(** X19. When the vector store answers with rows of the collection, a
    hybrid search never returns more results than there are chunks, and
    it returns all of them when [top_k] exceeds their number and no two
    chunks have the same concatenation of rule id and chunk index. *)
Theorem hybrid_search_result_count
    (store : list Retriever.entry -> string -> Z -> list (Retriever.entry * R))
    (self : Retriever.retriever) (query : string) (top_k : Z)
    (semantic_weight tfidf_weight : R) :
  (0 <= top_k)%Z ->
  (forall p, In p (store (Retriever.collection self) query (top_k * 2)%Z) ->
             In (fst p) (Retriever.collection self)) ->
  exists out self',
    Retriever.hybrid_search store self query top_k semantic_weight tfidf_weight
    = Ok (out, self')
    /\ length out <= length (Retriever.collection self)
    /\ (NoDup (map Formula.row_key (Retriever.collection self)) ->
        (Z.of_nat (length (Retriever.collection self)) < top_k)%Z ->
        length out = length (Retriever.collection self)).
Proof. apply hybrid_search_count. Qed.

Lemma hybrid_search_result_count_witness :
  exists out self',
    Retriever.hybrid_search Example.store Refresh.ingested "dog" 5 0.7 0.3
    = Ok (out, self')
    /\ length out <= length (Retriever.collection Refresh.ingested)
    /\ (NoDup (map Formula.row_key (Retriever.collection Refresh.ingested)) ->
        (Z.of_nat (length (Retriever.collection Refresh.ingested)) < 5)%Z ->
        length out = length (Retriever.collection Refresh.ingested)).
Proof.
  apply (hybrid_search_result_count Example.store Refresh.ingested "dog" 5
           0.7 0.3); [lia|].
  intros p Hp.
  change (Example.store (Retriever.collection Refresh.ingested) "dog" (5 * 2))
    with [(Refresh.row "1" "dog", 0%R); (Refresh.row "2" "cat", 0%R)] in Hp.
  destruct Hp as [<-|[<-|[]]]; cbn; auto.
Defined.

(** X20. Right after the collection has been cleared, a hybrid search
    returns the empty list and changes nothing, provided the vector store
    finds nothing in an empty collection. *)
Theorem hybrid_search_cleared
    (store : list Retriever.entry -> string -> Z -> list (Retriever.entry * R))
    (self : Retriever.retriever) (query : string) (top_k : Z)
    (semantic_weight tfidf_weight : R) :
  store [] query (top_k * 2)%Z = [] ->
  Retriever.hybrid_search store (Retriever.clear_collection self) query top_k
                          semantic_weight tfidf_weight
  = Ok ([], Retriever.clear_collection self).
Proof. apply hybrid_search_after_clear. Qed.

Lemma hybrid_search_cleared_witness :
  Retriever.hybrid_search Example.store
    (Retriever.clear_collection Refresh.queried) "dog" 5 0.7 0.3
  = Ok ([], Retriever.clear_collection Refresh.queried).
Proof.
  apply (hybrid_search_cleared Example.store Refresh.queried "dog" 5 0.7 0.3).
  reflexivity.
Defined.

(** ** The retrieval metrics *)









Lemma filter_length_bound {A : Type} (f : A -> bool) l :
  length (List.filter f l) <= length l.
Proof.
  induction l as [|x l IH]; [reflexivity|].
  cbn [List.filter]. destruct (f x); cbn [length]; lia.
Qed.

Lemma filter_none {A : Type} (f : A -> bool) l :
  Forall (fun x => f x = false) l -> List.filter f l = [].
Proof.
  induction 1 as [|x l Hx _ IH]; [reflexivity|].
  cbn [List.filter]. now rewrite Hx.
Qed.

Lemma filter_every {A : Type} (f : A -> bool) l :
  Forall (fun x => f x = true) l -> List.filter f l = l.
Proof.
  induction 1 as [|x l Hx _ IH]; [reflexivity|].
  cbn [List.filter]. now rewrite Hx, IH.
Qed.

Lemma faithfulness_ok contexts answer :
  Metrics._calculate_faithfulness contexts answer
  = Ok (Rmin
          match Formula.content_words answer with
          | [] => 0%R
          | _ :: _ =>
              (INR (length
                      (List.filter
                         (fun word =>
                            Py.contains word (Formula.context_text contexts))
                         (Formula.content_words answer)))
               / INR (length (Formula.content_words answer)))%R
          end 1).
Proof.
  unfold Metrics._calculate_faithfulness.
  fold (Formula.context_text contexts). fold (Formula.content_words answer).
  destruct (Formula.content_words answer) as [|w ws] eqn:E; [reflexivity|].
  rewrite div_ok by (apply not_0_INR; discriminate). reflexivity.
Qed.

(** X23. The faithfulness never raises and is the share of the answer's
    content words that occur in the lower-cased text of the contexts: a
    number between [0] and [1] which, multiplied by the number of content
    words, gives the number of those found. The cap at [1.0] never comes
    into play, and an answer without content words gets [0]. *)
Theorem faithfulness_fraction (contexts : list ClaudeQA.context)
    (answer : string) :
  exists v,
    Metrics._calculate_faithfulness contexts answer = Ok v
    /\ (0 <= v <= 1)%R
    /\ (INR (length (Formula.content_words answer)) * v
        = INR (length
                 (List.filter
                    (fun word => Py.contains word (Formula.context_text contexts))
                    (Formula.content_words answer))))%R
    /\ (Formula.content_words answer = [] -> v = 0%R).
Proof.
  eexists. split; [apply faithfulness_ok|].
  pose proof (filter_length_bound
                (fun word => Py.contains word (Formula.context_text contexts))
                (Formula.content_words answer)) as Hle.
  destruct (Formula.content_words answer) as [|w ws] eqn:E.
  - cbn [List.filter length INR]. rewrite Rmin_left by lra.
    split; [lra|]. split; [lra|reflexivity].
  - set (g := length (List.filter _ (w :: ws))) in *.
    assert (Hn : (0 < INR (length (w :: ws)))%R)
      by (apply lt_0_INR; cbn; lia).
    assert (Hg : (0 <= INR g <= INR (length (w :: ws)))%R)
      by (split; [apply pos_INR|now apply le_INR]).
    assert (H1 : (INR g / INR (length (w :: ws)) <= 1)%R).
    { apply (Rmult_le_reg_r (INR (length (w :: ws)))); [exact Hn|].
      unfold Rdiv. rewrite Rmult_assoc, Rinv_l by lra. lra. }
    rewrite Rmin_left by exact H1.
    split; [split; [apply div_nonneg; lra|exact H1]|].
    split; [|discriminate].
    unfold Rdiv. rewrite <- Rmult_assoc, (Rmult_comm _ (INR g)), Rmult_assoc.
    rewrite Rinv_r by lra. lra.
Qed.

(** X24. The faithfulness is [1] when the answer has a content word and
    every content word occurs in the text of the contexts, as a word or
    inside a longer one, and [0] when none of them occurs. *)
Theorem faithfulness_extremes (contexts : list ClaudeQA.context)
    (answer : string) :
  (Formula.content_words answer <> [] ->
   Forall (fun word => Py.contains word (Formula.context_text contexts) = true)
          (Formula.content_words answer) ->
   Metrics._calculate_faithfulness contexts answer = Ok 1%R)
  /\ (Forall (fun word =>
                Py.contains word (Formula.context_text contexts) = false)
             (Formula.content_words answer) ->
      Metrics._calculate_faithfulness contexts answer = Ok 0%R).
Proof.
  rewrite faithfulness_ok. split.
  - intros Hne Hall. rewrite (filter_every _ _ Hall).
    destruct (Formula.content_words answer) as [|w ws]; [congruence|].
    unfold Rdiv. rewrite Rinv_r by (apply not_0_INR; discriminate).
    now rewrite Rmin_left by lra.
  - intros Hnone. rewrite (filter_none _ _ Hnone).
    destruct (Formula.content_words answer) as [|w ws].
    + now rewrite Rmin_left by lra.
    + cbn [length INR]. unfold Rdiv. rewrite Rmult_0_l.
      now rewrite Rmin_left by lra.
Qed.

Lemma faithfulness_extremes_witness :
  Metrics._calculate_faithfulness
    [ {| ClaudeQA.ctx_content := "Play the ball as it lies.";
         ClaudeQA.ctx_semantic_score := Some 0.9%R;
         ClaudeQA.ctx_final_score := Some 0.8%R |} ]
    "The ball LIES as it is"
  = Ok 1%R.
Proof.
  apply (proj1 (faithfulness_extremes
                  [ {| ClaudeQA.ctx_content := "Play the ball as it lies.";
                       ClaudeQA.ctx_semantic_score := Some 0.9%R;
                       ClaudeQA.ctx_final_score := Some 0.8%R |} ]
                  "The ball LIES as it is")).
  - vm_compute. discriminate.
  - vm_compute. repeat constructor.
Defined.

(** ** Cosine similarity as a similarity *)




Lemma dot_cons x y vec1 vec2 :
  Formula.dot (x :: vec1) (y :: vec2) = (x * y + Formula.dot vec1 vec2)%R.
Proof. reflexivity. Qed.

Lemma dot_comm vec1 vec2 : Formula.dot vec1 vec2 = Formula.dot vec2 vec1.
Proof.
  revert vec2. induction vec1 as [|x vec1 IH]; intros [|y vec2];
    try reflexivity.
  rewrite !dot_cons, IH. lra.
Qed.





(** X25. The similarity does not depend on the order of its arguments,
    also when it raises. *)
Theorem cosine_similarity_symmetric (vec1 vec2 : list R) :
  Embeddings.cosine_similarity vec1 vec2
  = Embeddings.cosine_similarity vec2 vec1.
Proof.
  unfold Embeddings.cosine_similarity.
  destruct (Nat.eq_dec (length vec1) (length vec2)) as [E|E].
  - rewrite (np_dot_ok vec1 vec2 E), (np_dot_ok vec2 vec1 (eq_sym E)).
    cbn [Py.bind]. rewrite dot_comm, orb_comm.
    now rewrite (Rmult_comm (Embeddings.np_norm vec1)).
  - rewrite (np_dot_mismatch vec1 vec2 E).
    rewrite (np_dot_mismatch vec2 vec1 (not_eq_sym E)). reflexivity.
Qed.










(** ** The embedding provider *)

Lemma name_or_truthy name default :
  Py.truthy default = true -> Py.truthy (Provider.name_or name default) = true.
Proof.
  intros Hd. unfold Provider.name_or.
  destruct name as [s|]; [|exact Hd].
  destruct (Py.truthy s) eqn:E; [exact E|exact Hd].
Qed.

(** X29. An initialisation that succeeds leaves the service with exactly
    one backend and a non-empty model name: either the provider is
    "voyage" with a client and no local model, which takes a request for
    voyage, the library, a non-empty API key and a client that starts; or
    the provider is "local" with a loaded model and no client. *)
Theorem init_ready (env : Provider.environment) (provider_arg : string)
    (model_name_arg : option string) (self : Provider.service) :
  Provider.init env provider_arg model_name_arg = Provider.Ready self ->
  (exists name,
     Provider.model_name self = Some name /\ Py.truthy name = true)
  /\ ((Provider.provider self = "voyage"%string
       /\ Provider.client self = true /\ Provider.model self = false
       /\ Py.lower provider_arg = "voyage"%string
       /\ Provider.VOYAGE_AVAILABLE env = true
       /\ Provider.voyage_client_starts env = true
       /\ exists key, Provider.VOYAGE_API_KEY env = Some key
                      /\ Py.truthy key = true)
      \/ (Provider.provider self = "local"%string
          /\ Provider.client self = false /\ Provider.model self = true
          /\ Provider.SENTENCE_TRANSFORMERS_AVAILABLE env = true
          /\ Provider.local_model_loads env = true)).
Proof.
  unfold Provider.init, Provider._initialize_provider, Provider._initialize_voyage,
    Provider.fall_back, Provider._initialize_local.
  cbn [Provider.provider Provider.model_name Provider.client Provider.model].
  destruct (String.eqb_spec (Py.lower provider_arg) "voyage") as [Ev|Ev];
    [|destruct (String.eqb_spec (Py.lower provider_arg) "local") as [El|El]];
    destruct (Provider.VOYAGE_AVAILABLE env) eqn:Hva;
    destruct (Provider.SENTENCE_TRANSFORMERS_AVAILABLE env) eqn:Hst;
    destruct (Provider.local_model_loads env) eqn:Hl;
    destruct (Provider.voyage_client_starts env) eqn:Hc;
    destruct (Provider.VOYAGE_API_KEY env) as [key|] eqn:Hk;
    try destruct (Py.truthy key) eqn:Ht;
    cbn [negb]; intros H; try discriminate H; injection H as <-;
    cbn [Provider.provider Provider.model_name Provider.client Provider.model];
    (split; [eexists; split; [reflexivity|now apply name_or_truthy]|]);
    try (right; repeat split; congruence);
    left; repeat split; try congruence; eauto.
Qed.

Lemma init_ready_witness :
  (exists name,
     Provider.model_name Example.local_service = Some name
     /\ Py.truthy name = true)
  /\ ((Provider.provider Example.local_service = "voyage"%string
       /\ Provider.client Example.local_service = true
       /\ Provider.model Example.local_service = false
       /\ Py.lower "Voyage" = "voyage"%string
       /\ Provider.VOYAGE_AVAILABLE Example.no_key = true
       /\ Provider.voyage_client_starts Example.no_key = true
       /\ exists key, Provider.VOYAGE_API_KEY Example.no_key = Some key
                      /\ Py.truthy key = true)
      \/ (Provider.provider Example.local_service = "local"%string
          /\ Provider.client Example.local_service = false
          /\ Provider.model Example.local_service = true
          /\ Provider.SENTENCE_TRANSFORMERS_AVAILABLE Example.no_key = true
          /\ Provider.local_model_loads Example.no_key = true)).
Proof.
  apply (init_ready Example.no_key "Voyage" None Example.local_service).
  reflexivity.
Defined.

(** X30. A provider name other than "voyage" and "local", in any case of
    letters, is refused whatever the environment; and with a local model
    that loads, a request for either of the two always succeeds, voyage
    falling back to the local model where it cannot be used. *)
Theorem init_known_provider (env : Provider.environment)
    (provider_arg : string) (model_name_arg : option string) :
  (Py.lower provider_arg <> "voyage"%string ->
   Py.lower provider_arg <> "local"%string ->
   Provider.init env provider_arg model_name_arg
   = Provider.Failed Provider.UnknownProvider)
  /\ (Provider.SENTENCE_TRANSFORMERS_AVAILABLE env = true ->
      Provider.local_model_loads env = true ->
      Py.lower provider_arg = "voyage"%string
      \/ Py.lower provider_arg = "local"%string ->
      exists self,
        Provider.init env provider_arg model_name_arg = Provider.Ready self).
Proof.
  unfold Provider.init, Provider._initialize_provider, Provider._initialize_voyage,
    Provider.fall_back, Provider._initialize_local.
  cbn [Provider.provider Provider.model_name Provider.client Provider.model].
  split.
  - intros Hv Hl.
    apply String.eqb_neq in Hv, Hl. now rewrite Hv, Hl.
  - intros -> -> [E|E]; rewrite E; cbn [String.eqb Ascii.eqb Bool.eqb negb];
      [|eauto].
    destruct (Provider.VOYAGE_AVAILABLE env); cbn [negb]; [|eauto].
    destruct (Provider.VOYAGE_API_KEY env) as [key|]; [|eauto].
    destruct (Py.truthy key); [|eauto].
    destruct (Provider.voyage_client_starts env); eauto.
Qed.

Lemma init_known_provider_witness :
  exists self,
    Provider.init
      {| Provider.VOYAGE_AVAILABLE := false;
         Provider.SENTENCE_TRANSFORMERS_AVAILABLE := true;
         Provider.VOYAGE_API_KEY := Some "key"%string;
         Provider.voyage_client_starts := true;
         Provider.local_model_loads := true |}
      "VOYAGE" None
    = Provider.Ready self.
Proof.
  apply (proj2 (init_known_provider
                  {| Provider.VOYAGE_AVAILABLE := false;
                     Provider.SENTENCE_TRANSFORMERS_AVAILABLE := true;
                     Provider.VOYAGE_API_KEY := Some "key"%string;
                     Provider.voyage_client_starts := true;
                     Provider.local_model_loads := true |}
                  "VOYAGE" None));
    [reflexivity|reflexivity|left; reflexivity].
Defined.
